(** * Session transport manager: the WebSocket provider of the client

    A shallow embedding of [frontend/src/contexts/WebSocketContext.tsx].
    The provider keeps three refs ([wsRef], [reconnectTimeoutRef],
    [reconnectAttemptsRef]) and four pieces of React state; its functions
    are embedded as actions of a small state-and-exception monad that also
    records the observable effects (console lines, toasts, frames put on
    the wire, timers set and cleared).  The browser side (socket table,
    timer table) is part of the state, so that [readyState] tests and
    [clearTimeout] mean what they mean in the browser. *)

From Stdlib Require Import ZArith String Ascii List Bool Lia DecimalString.
From stdpp Require Import base list strings gmap.
Import ListNotations.

Local Open Scope string_scope.
Local Open Scope Z_scope.
#[local] Set Warnings "-register-all".

Module WebSocketContext.

(** ** JavaScript values that reach the provider *)

(** What [JSON.parse] can return, plus [undefined], which property reads
    produce.  A number is kept as the decimal literal [mantissa * 10^exponent]. *)
Inductive jsval : Type :=
| JUndefined
| JNull
| JBool (b : bool)
| JNum (mantissa exponent : Z)
| JStr (s : string)
| JArr (items : list jsval)
| JObj (fields : list (string * jsval)).

Inductive Exn : Type := SyntaxError | TypeError | InvalidStateError.

(** JavaScript truthiness, as used by [if (x)] and [||]. *)
Definition truthy (v : jsval) : bool :=
  match v with
  | JUndefined | JNull => false
  | JBool b => b
  | JNum m _ => negb (m =? 0)
  | JStr s => negb (String.eqb s "")
  | JArr _ | JObj _ => true
  end.

Fixpoint assoc (k : string) (fs : list (string * jsval)) : jsval :=
  match fs with
  | [] => JUndefined
  | (k', v) :: fs' => if String.eqb k k' then v else assoc k fs'
  end.

(** [v.k] for the keys the provider reads ([type], [data], [feedback],
    [result], [question], [message]): none of them is an index, [length]
    or a prototype member, so only an object can answer, and reading from
    [null] or [undefined] is a [TypeError]. *)
Definition get_prop (v : jsval) (k : string) : Exn + jsval :=
  match v with
  | JUndefined | JNull => inl TypeError
  | JObj fs => inr (assoc k fs)
  | _ => inr JUndefined
  end.

(** [v?.k] *)
Definition get_prop_opt (v : jsval) (k : string) : jsval :=
  match get_prop v k with
  | inl _ => JUndefined
  | inr x => x
  end.

(** [a || b] *)
Definition js_or (a b : jsval) : jsval := if truthy a then a else b.

(** A state variable typed [T | null] holds [None] for [null]. *)
Definition nullable (v : jsval) : option jsval :=
  match v with
  | JNull => None
  | _ => Some v
  end.

(** ** The provider's data *)

Inductive ConnectionStatus : Type := connecting | connected | disconnected | error.

Inductive SessionType : Type := interview | coding.

(** What [useAuth()] gave the render whose closures are running. *)
Record Auth : Type := mkAuth {
  token : option string;
  isAuthenticated : bool
}.

(** The variables a [connect] call binds and its socket handlers and
    timer callback close over. *)
Record Closure : Type := mkClosure {
  cl_auth : Auth;
  cl_sessionId : string;
  cl_sessionType : SessionType
}.

Inductive ReadyState : Type := CONNECTING | OPEN | CLOSING | CLOSED.

Definition is_OPEN (r : ReadyState) : bool :=
  match r with OPEN => true | _ => false end.

(** A browser socket: [readyState], the URL it was made for, and the
    closure of the four handlers [connect] put on it. *)
Record WebSocket : Type := mkWebSocket {
  readyState : ReadyState;
  url : string;
  handlers : Closure
}.

Inductive Frame : Type :=
| TextFrame (text : string)
| BinaryFrame (bytes : list Byte.byte).

(** A value of type [any], as [sendMessage] is given one, seen through
    [JSON.stringify]: a value the call serializes, given as the JSON
    value it denotes, or a value on which the call throws (a cyclic object
    or a BigInt, with a [TypeError]; an object whose [toJSON] or getter
    throws, with what that throws). *)
Inductive any : Type :=
| Plain (v : jsval)
| Throwing (e : Exn).

Inductive logarg : Type :=
| LVal (v : jsval)
| LExn (e : Exn)
| LEvent.

Inductive Effect : Type :=
| ConsoleLog (args : list logarg)
| ConsoleError (args : list logarg)
| ToastError (content : jsval)
| ToastSuccess (content : jsval)
| WsNew (id : nat) (target : string)
| WsSend (id : nat) (frame : Frame)
| WsClose (id : nat) (code : Z) (reason : string)
| SetTimeout (handle : nat) (delay : Z)
| ClearTimeout (handle : nat).

(** The React state, the refs, and the browser tables behind them.
    A socket's id is its index in [sockets]; a timer handle is its index
    in [timers], whose slot is [Some] while the timer is pending and
    [None] once it fired or was cleared.  The handles [setTimeout] returns
    are never falsy, so a ref that holds one passes [if (ref.current)]. *)
Record State : Type := mkState {
  isConnected : bool;
  connectionStatus : ConnectionStatus;
  lastMessage : option jsval;
  messages : list jsval;
  wsRef : option nat;
  reconnectTimeoutRef : option nat;
  reconnectAttemptsRef : nat;
  sockets : list WebSocket;
  timers : list (option Closure)
}.

Definition initial : State :=
  mkState false disconnected None [] None None 0%nat [] [].

Definition maxReconnectAttempts : nat := 5.

(** ** State, effects and exceptions *)

Inductive Res (A : Type) : Type :=
| Ok (a : A)
| Throw (e : Exn).
Arguments Ok {A} a.
Arguments Throw {A} e.

Record Outcome (A : Type) : Type := mkOutcome {
  res : Res A;
  st : State;
  out : list Effect
}.
Arguments mkOutcome {A} res st out.
Arguments res {A} o.
Arguments st {A} o.
Arguments out {A} o.

Definition M (A : Type) : Type := State -> Outcome A.

Definition ret {A} (a : A) : M A := fun s => mkOutcome (Ok a) s [].

Definition bind {A B} (m : M A) (k : A -> M B) : M B :=
  fun s =>
    match m s with
    | mkOutcome (Ok a) s1 o1 =>
        match k a s1 with
        | mkOutcome r s2 o2 => mkOutcome r s2 (o1 ++ o2)%list
        end
    | mkOutcome (Throw e) s1 o1 => mkOutcome (Throw e) s1 o1
    end.

Definition throw {A} (e : Exn) : M A := fun s => mkOutcome (Throw e) s [].

(** [try { body } catch (e) { handler e }] *)
Definition try_catch {A} (body : M A) (handler : Exn -> M A) : M A :=
  fun s =>
    match body s with
    | mkOutcome (Ok a) s1 o1 => mkOutcome (Ok a) s1 o1
    | mkOutcome (Throw e) s1 o1 =>
        match handler e s1 with
        | mkOutcome r s2 o2 => mkOutcome r s2 (o1 ++ o2)%list
        end
    end.

Definition get : M State := fun s => mkOutcome (Ok s) s [].
Definition modify (f : State -> State) : M unit := fun s => mkOutcome (Ok tt) (f s) [].
Definition emit (e : Effect) : M unit := fun s => mkOutcome (Ok tt) s [e].
Definition lift {A} (x : Exn + A) : M A :=
  match x with
  | inl e => throw e
  | inr a => ret a
  end.

Notation "'let*' x ':=' m 'in' k" := (bind m (fun x => k))
  (at level 10, x name, m at level 100, k at level 200).
Notation "m ;; k" := (bind m (fun _ => k))
  (at level 100, k at level 200, right associativity).

(** *** Setters *)

Definition setIsConnected (b : bool) : M unit :=
  modify (fun s => mkState b (connectionStatus s) (lastMessage s) (messages s)
                     (wsRef s) (reconnectTimeoutRef s) (reconnectAttemptsRef s)
                     (sockets s) (timers s)).

Definition setConnectionStatus (c : ConnectionStatus) : M unit :=
  modify (fun s => mkState (isConnected s) c (lastMessage s) (messages s)
                     (wsRef s) (reconnectTimeoutRef s) (reconnectAttemptsRef s)
                     (sockets s) (timers s)).

Definition setLastMessage (m : option jsval) : M unit :=
  modify (fun s => mkState (isConnected s) (connectionStatus s) m (messages s)
                     (wsRef s) (reconnectTimeoutRef s) (reconnectAttemptsRef s)
                     (sockets s) (timers s)).

(** [setMessages(prev => f prev)] *)
Definition setMessages (f : list jsval -> list jsval) : M unit :=
  modify (fun s => mkState (isConnected s) (connectionStatus s) (lastMessage s)
                     (f (messages s))
                     (wsRef s) (reconnectTimeoutRef s) (reconnectAttemptsRef s)
                     (sockets s) (timers s)).

Definition set_wsRef (w : option nat) : M unit :=
  modify (fun s => mkState (isConnected s) (connectionStatus s) (lastMessage s)
                     (messages s) w (reconnectTimeoutRef s) (reconnectAttemptsRef s)
                     (sockets s) (timers s)).

Definition set_reconnectTimeoutRef (t : option nat) : M unit :=
  modify (fun s => mkState (isConnected s) (connectionStatus s) (lastMessage s)
                     (messages s) (wsRef s) t (reconnectAttemptsRef s)
                     (sockets s) (timers s)).

Definition set_reconnectAttemptsRef (n : nat) : M unit :=
  modify (fun s => mkState (isConnected s) (connectionStatus s) (lastMessage s)
                     (messages s) (wsRef s) (reconnectTimeoutRef s) n
                     (sockets s) (timers s)).

Definition set_sockets (f : list WebSocket -> list WebSocket) : M unit :=
  modify (fun s => mkState (isConnected s) (connectionStatus s) (lastMessage s)
                     (messages s) (wsRef s) (reconnectTimeoutRef s)
                     (reconnectAttemptsRef s) (f (sockets s)) (timers s)).

Definition set_timers (f : list (option Closure) -> list (option Closure)) : M unit :=
  modify (fun s => mkState (isConnected s) (connectionStatus s) (lastMessage s)
                     (messages s) (wsRef s) (reconnectTimeoutRef s)
                     (reconnectAttemptsRef s) (sockets s) (f (timers s))).

(** *** Console and toasts *)

Definition console_log (args : list logarg) : M unit := emit (ConsoleLog args).
Definition console_error (args : list logarg) : M unit := emit (ConsoleError args).
Definition toast_error (content : jsval) : M unit := emit (ToastError content).
Definition toast_success (content : jsval) : M unit := emit (ToastSuccess content).

(** ** Events *)

(** Everything that can run provider code: calls made by consumers, the
    two effects of the component, socket events and timer expiry. *)
Inductive Event : Type :=
| CallConnect (a : Auth) (sessionId : string) (sessionType : SessionType)
| CallDisconnect
| CallSendMessage (message : any)
| CallSendBinaryData (data : list Byte.byte)
| CallClearMessages
| Unmount
| AuthChanged (a : Auth)
| SockOpen (id : nat)
| SockMessage (id : nat) (data : string)
| SockClose (id : nat) (code : Z) (reason : string)
| SockError (id : nat)
| TimerFire (h : nat).

(** ** A concrete platform for worked examples *)

Module Demo.

Definition parse (data : string) : option jsval :=
  if String.eqb data "null" then Some JNull
  else if String.eqb data "42" then Some (JNum 42 0)
  else if String.eqb data "{}" then Some (JObj [])
  else if String.eqb data "hello" then
    Some (JObj [("type", JStr "connection_established"); ("timestamp", JNum 17 11)])
  else if String.eqb data "oops" then
    Some (JObj [("type", JStr "error"); ("data", JObj [("message", JStr "boom")])])
  else None.

Definition stringify (v : jsval) : string :=
  match v with
  | JObj [("type", JStr "auth"); ("token", JStr t)] => "auth:" +:+ t
  | _ => "json"
  end.

Definition url_ok (u : string) : bool := negb (String.eqb u "").

Definition base : string := "ws://localhost:8000".

Definition user : Auth := mkAuth (Some "T") true.
Definition guest : Auth := mkAuth None false.
Definition target : Closure := mkClosure user "abc123" interview.

Definition sock (r : ReadyState) : WebSocket :=
  mkWebSocket r "ws://localhost:8000/ws/interview/abc123" target.

(** After [n] failed attempts: the [n]-th timer has fired and the socket
    it made is connecting. *)
Definition retrying (n : nat) : State :=
  mkState false connecting None [] (Some n)
    (match n with
     | O => None
     | S m => Some m
     end)
    n (replicate n (sock CLOSED) ++ [sock CONNECTING])%list (replicate n None).

(** Connected and authenticated. *)
Definition open_state : State :=
  mkState true connected None [] (Some 0%nat) None 0%nat [sock OPEN] [].

(** The first socket was lost and the first reconnect timer is pending. *)
Definition waiting : State :=
  mkState false disconnected None [] (Some 0%nat) (Some 0%nat) 1%nat
    [sock CLOSED] [Some target].

(** Six closures in a row, each but the last followed by the expiry of
    the timer it set. *)
Definition failures : list Event :=
  [SockClose 0 1006 ""; TimerFire 0;
   SockClose 1 1006 ""; TimerFire 1;
   SockClose 2 1006 ""; TimerFire 2;
   SockClose 3 1006 ""; TimerFire 3;
   SockClose 4 1006 ""; TimerFire 4;
   SockClose 5 1006 ""].

End Demo.

(** ** The browser and the provider's functions *)

Section Provider.

(** What the runtime and the build supply: [JSON.parse] ([None] when it
    throws its [SyntaxError]), [JSON.stringify] on the values it
    serializes, whether the [WebSocket]
    constructor accepts a URL, and [process.env.REACT_APP_WS_URL] as the
    template literal renders it. *)
Variable JSON_parse : string -> option jsval.
Variable JSON_stringify : jsval -> string.
Variable ws_url_ok : string -> bool.
Variable REACT_APP_WS_URL : string.

(** *** Sockets and timers of the browser *)

(** [new WebSocket(target)], carrying the handlers [connect] assigns. *)
Definition new_WebSocket (target : string) (cl : Closure) : M nat :=
  if ws_url_ok target then
    let* s := get in
    let id := length (sockets s) in
    set_sockets (fun l => (l ++ [mkWebSocket CONNECTING target cl])%list) ;;
    emit (WsNew id target) ;;
    ret id
  else throw SyntaxError.

Definition set_readyState (id : nat) (r : ReadyState) : M unit :=
  set_sockets (fun l =>
    match l !! id with
    | Some sk => <[id := mkWebSocket r (url sk) (handlers sk)]> l
    | None => l
    end).

(** [ws.send(frame)]: throws while the socket is still connecting, puts
    the frame on the wire when it is open, drops it afterwards. *)
Definition ws_send (id : nat) (frame : Frame) : M unit :=
  let* s := get in
  match readyState <$> sockets s !! id with
  | Some CONNECTING => throw InvalidStateError
  | Some OPEN => emit (WsSend id frame)
  | _ => ret tt
  end.

(** [ws.close(code, reason)] starts the closing handshake. *)
Definition ws_close (id : nat) (code : Z) (reason : string) : M unit :=
  let* s := get in
  emit (WsClose id code reason) ;;
  match readyState <$> sockets s !! id with
  | Some CONNECTING | Some OPEN => set_readyState id CLOSING
  | _ => ret tt
  end.

(** [wsRef.current?.readyState === WebSocket.OPEN] *)
Definition ws_is_open (s : State) : bool :=
  match wsRef s with
  | Some id =>
      match sockets s !! id with
      | Some sk => is_OPEN (readyState sk)
      | None => false
      end
  | None => false
  end.

Definition setTimeout (cb : Closure) (delay : Z) : M nat :=
  let* s := get in
  let h := length (timers s) in
  set_timers (fun l => (l ++ [Some cb])%list) ;;
  emit (SetTimeout h delay) ;;
  ret h.

Definition clearTimeout (h : nat) : M unit :=
  set_timers (fun l => <[h := None]> l) ;;
  emit (ClearTimeout h).

Definition pending (s : State) (h : nat) : bool :=
  match timers s !! h with
  | Some (Some _) => true
  | _ => false
  end.

(** *** The provider *)

Definition decimal (z : Z) : string := NilZero.string_of_int (Z.to_int z).

(** [Math.min(1000 * Math.pow(2, n), 30000)] *)
Definition backoff (n : nat) : Z := Z.min (1000 * 2 ^ Z.of_nat n) 30000.

Definition token_val (a : Auth) : jsval :=
  match token a with
  | Some t => JStr t
  | None => JNull
  end.

(** [!token] *)
Definition no_token (a : Auth) : bool := negb (truthy (token_val a)).

Definition wsUrl (sessionId : string) (sessionType : SessionType) : string :=
  match sessionType with
  | interview => REACT_APP_WS_URL +:+ "/ws/interview/" +:+ sessionId
  | coding => REACT_APP_WS_URL +:+ "/ws/coding/" +:+ sessionId
  end.

Definition handleWebSocketMessage (message : jsval) : M unit :=
  let* ty := lift (get_prop message "type") in
  match ty with
  | JStr t =>
      if String.eqb t "connection_established" then
        toast_success (JStr "Connected to HireSmart AI")
      else if String.eqb t "real_time_feedback" then
        let* feedback := lift (get_prop message "feedback") in
        if truthy feedback
        then console_log [LVal (JStr "Real-time feedback:"); LVal feedback]
        else ret tt
      else if String.eqb t "coding_execution_result" then
        let* result := lift (get_prop message "result") in
        if truthy result
        then console_log [LVal (JStr "Code execution result:"); LVal result]
        else ret tt
      else if String.eqb t "interview_question" then
        let* question := lift (get_prop message "question") in
        if truthy question
        then console_log [LVal (JStr "New interview question:"); LVal question]
        else ret tt
      else if String.eqb t "error" then
        let* data := lift (get_prop message "data") in
        toast_error (js_or (get_prop_opt data "message") (JStr "An error occurred"))
      else console_log [LVal (JStr "Unhandled message type:"); LVal ty]
  | _ => console_log [LVal (JStr "Unhandled message type:"); LVal ty]
  end.

Definition attemptReconnect (cl : Closure) : M unit :=
  let* s := get in
  if (maxReconnectAttempts <=? reconnectAttemptsRef s)%nat then
    toast_error (JStr "Unable to reconnect. Please refresh the page.")
  else
    set_reconnectAttemptsRef (S (reconnectAttemptsRef s)) ;;
    let* s := get in
    let delay := backoff (reconnectAttemptsRef s) in
    console_log [LVal (JStr ("Attempting to reconnect in " +:+ decimal delay
                             +:+ "ms (attempt "
                             +:+ decimal (Z.of_nat (reconnectAttemptsRef s)) +:+ ")"))] ;;
    let* h := setTimeout cl delay in
    set_reconnectTimeoutRef (Some h).

Definition onopen (cl : Closure) : M unit :=
  console_log [LVal (JStr "WebSocket connected")] ;;
  setIsConnected true ;;
  setConnectionStatus connected ;;
  set_reconnectAttemptsRef 0 ;;
  let* s := get in
  match wsRef s with
  | Some id =>
      ws_send id (TextFrame (JSON_stringify
        (JObj [("type", JStr "auth"); ("token", token_val (cl_auth cl))])))
  | None => ret tt
  end.

Definition onmessage (data : string) : M unit :=
  try_catch
    (let* message :=
       match JSON_parse data with
       | Some v => ret v
       | None => throw SyntaxError
       end in
     setLastMessage (nullable message) ;;
     setMessages (fun prev => (prev ++ [message])%list) ;;
     handleWebSocketMessage message)
    (fun e =>
       console_error [LVal (JStr "Error parsing WebSocket message:"); LExn e]).

Definition onclose (cl : Closure) (code : Z) (reason : string) : M unit :=
  console_log [LVal (JStr "WebSocket disconnected:"); LVal (JNum code 0);
               LVal (JStr reason)] ;;
  setIsConnected false ;;
  setConnectionStatus disconnected ;;
  let* s := get in
  if negb (code =? 1000) && (reconnectAttemptsRef s <? maxReconnectAttempts)%nat
  then attemptReconnect cl
  else ret tt.

Definition onerror : M unit :=
  console_error [LVal (JStr "WebSocket error:"); LEvent] ;;
  setConnectionStatus error ;;
  toast_error (JStr "Connection error. Please check your internet connection.").

Definition connect_as (cl : Closure) : M unit :=
  if negb (isAuthenticated (cl_auth cl)) || no_token (cl_auth cl) then
    console_error [LVal (JStr "Cannot connect WebSocket: User not authenticated")]
  else
    let* s := get in
    if ws_is_open s then
      console_log [LVal (JStr "WebSocket already connected")]
    else
      try_catch
        (setConnectionStatus connecting ;;
         let* id := new_WebSocket (wsUrl (cl_sessionId cl) (cl_sessionType cl)) cl in
         set_wsRef (Some id))
        (fun e =>
           console_error [LVal (JStr "Error creating WebSocket connection:"); LExn e] ;;
           setConnectionStatus error).

(** [connect], run by a render whose [useAuth()] returned [a]. *)
Definition connect (a : Auth) (sessionId : string) (sessionType : SessionType) : M unit :=
  connect_as (mkClosure a sessionId sessionType).

Definition disconnect : M unit :=
  let* s := get in
  match reconnectTimeoutRef s with
  | Some h => clearTimeout h ;; set_reconnectTimeoutRef None
  | None => ret tt
  end ;;
  let* s := get in
  match wsRef s with
  | Some id => ws_close id 1000 "User disconnected" ;; set_wsRef None
  | None => ret tt
  end ;;
  setIsConnected false ;;
  setConnectionStatus disconnected ;;
  set_reconnectAttemptsRef 0.

Definition sendMessage (message : any) : M unit :=
  let* s := get in
  if ws_is_open s then
    match wsRef s with
    | Some id =>
        match message with
        | Plain v => ws_send id (TextFrame (JSON_stringify v))
        | Throwing e => throw e
        end
    | None => ret tt
    end
  else
    console_error [LVal (JStr "WebSocket is not connected")] ;;
    toast_error (JStr "Connection lost. Please reconnect.").

Definition sendBinaryData (data : list Byte.byte) : M unit :=
  let* s := get in
  if ws_is_open s then
    match wsRef s with
    | Some id => ws_send id (BinaryFrame data)
    | None => ret tt
    end
  else
    console_error [LVal (JStr "WebSocket is not connected")] ;;
    toast_error (JStr "Connection lost. Please reconnect.").

Definition clearMessages : M unit :=
  setMessages (fun _ => []) ;;
  setLastMessage None.

(** *** The event loop *)

(** One turn of the event loop.  A socket event runs the handler the
    socket carries, after the browser has updated [readyState]; an expired
    timer leaves the table and runs its callback. *)
Definition deliver (e : Event) : M unit :=
  match e with
  | CallConnect a sessionId sessionType => connect a sessionId sessionType
  | CallDisconnect => disconnect
  | CallSendMessage message => sendMessage message
  | CallSendBinaryData data => sendBinaryData data
  | CallClearMessages => clearMessages
  | Unmount => disconnect
  | AuthChanged a => if negb (isAuthenticated a) then disconnect else ret tt
  | SockOpen id =>
      let* s := get in
      match sockets s !! id with
      | Some sk => set_readyState id OPEN ;; onopen (handlers sk)
      | None => ret tt
      end
  | SockMessage id data =>
      let* s := get in
      match sockets s !! id with
      | Some sk => onmessage data
      | None => ret tt
      end
  | SockClose id code reason =>
      let* s := get in
      match sockets s !! id with
      | Some sk => set_readyState id CLOSED ;; onclose (handlers sk) code reason
      | None => ret tt
      end
  | SockError id =>
      let* s := get in
      match sockets s !! id with
      | Some sk => onerror
      | None => ret tt
      end
  | TimerFire h =>
      let* s := get in
      match timers s !! h with
      | Some (Some cb) => set_timers (fun l => <[h := None]> l) ;; connect_as cb
      | _ => ret tt
      end
  end.

(** A run of the loop; an exception that escapes a handler ends that
    handler only. *)
Fixpoint run (evs : list Event) (s : State) : State * list Effect :=
  match evs with
  | [] => (s, [])
  | e :: evs' =>
      let r := deliver e s in
      let (s', o) := run evs' (st r) in
      (s', (out r ++ o)%list)
  end.

(** ** Classifying effects *)

(** Console lines and toasts: what the user or the developer sees. *)
Definition is_notice (e : Effect) : bool :=
  match e with
  | ConsoleLog _ | ConsoleError _ | ToastError _ | ToastSuccess _ => true
  | _ => false
  end.

Definition is_toast (e : Effect) : bool :=
  match e with
  | ToastError _ | ToastSuccess _ => true
  | _ => false
  end.

Definition is_SetTimeout (e : Effect) : bool :=
  match e with
  | SetTimeout _ _ => true
  | _ => false
  end.

Definition is_WsSend (e : Effect) : bool :=
  match e with
  | WsSend _ _ => true
  | _ => false
  end.

(** [isAuthenticated && token], the negation of [connect]'s first guard. *)
Definition authorised (a : Auth) : bool :=
  isAuthenticated a && negb (no_token a).

(** *** Runs of failures *)

Definition is_SockClose (e : Event) : bool :=
  match e with
  | SockClose _ _ _ => true
  | _ => false
  end.

(** A close event of a socket the browser has, with a code other than
    the normal-closure code. *)
Definition unexpected_close (s : State) (e : Event) : bool :=
  match e with
  | SockClose id code _ =>
      match sockets s !! id with
      | Some _ => negb (code =? 1000)
      | None => false
      end
  | _ => false
  end.

Definition is_TimerFire (e : Event) : bool :=
  match e with
  | TimerFire _ => true
  | _ => false
  end.

(** A run in which nothing happens but unexpected closures and timer
    expiries (each of which calls [connect] again): no socket opens, and
    no consumer steps in. *)
Fixpoint failures_only (evs : list Event) (s : State) : bool :=
  match evs with
  | [] => true
  | e :: evs' =>
      (unexpected_close s e || is_TimerFire e)
      && failures_only evs' (st (deliver e s))
  end.

Definition closures (evs : list Event) : nat := length (List.filter is_SockClose evs).

Definition timeouts_set (o : list Effect) : nat := length (List.filter is_SetTimeout o).

(** The state [onclose] leaves before it decides about reconnecting. *)
Definition closed_state (s : State) : State :=
  mkState false disconnected (lastMessage s) (messages s)
    (wsRef s) (reconnectTimeoutRef s) (reconnectAttemptsRef s)
    (sockets s) (timers s).

(** The state after [attemptReconnect] has armed a timer for [cl]. *)
Definition scheduled (cl : Closure) (s : State) : State :=
  mkState (isConnected s) (connectionStatus s) (lastMessage s) (messages s)
    (wsRef s) (Some (length (timers s))) (S (reconnectAttemptsRef s))
    (sockets s) (timers s ++ [Some cl])%list.

Definition close_line (code : Z) (reason : string) : Effect :=
  ConsoleLog [LVal (JStr "WebSocket disconnected:"); LVal (JNum code 0);
              LVal (JStr reason)].

Definition attempt_line (n : nat) : Effect :=
  ConsoleLog [LVal (JStr ("Attempting to reconnect in " +:+ decimal (backoff n)
                          +:+ "ms (attempt " +:+ decimal (Z.of_nat n) +:+ ")"))].

(** *** Invariants of actions *)

(** [m] keeps the state inside [I] and only produces effects in [Q]. *)
Definition keeps (I : State -> Prop) (Q : Effect -> bool) {A} (m : M A) : Prop :=
  forall s, I s -> I (st (m s)) /\ forallb Q (out (m s)) = true.

(** The timer with handle [h] was issued and is no longer pending. *)
Definition spent (h : nat) (s : State) : Prop := timers s !! h = Some None.

(** *** Frames *)

(** [JSON.stringify({ type: 'auth', token: token })] as a text frame. *)
Definition auth_frame (a : Auth) : Frame :=
  TextFrame (JSON_stringify (JObj [("type", JStr "auth"); ("token", token_val a)])).

(** The two calls by which a consumer asks for a frame to be sent. *)
Definition is_consumer_send (e : Event) : bool :=
  match e with
  | CallSendMessage _ | CallSendBinaryData _ => true
  | _ => false
  end.

(** *** The state [disconnect] leaves *)

(** The socket table after [close] was called on socket [id]. *)
Definition closing (id : nat) (l : list WebSocket) : list WebSocket :=
  match readyState <$> l !! id with
  | Some CONNECTING | Some OPEN =>
      match l !! id with
      | Some sk => <[id := mkWebSocket CLOSING (url sk) (handlers sk)]> l
      | None => l
      end
  | _ => l
  end.

Definition disconnected_state (s : State) : State :=
  mkState false disconnected (lastMessage s) (messages s) None None 0%nat
    (match wsRef s with
     | Some id => closing id (sockets s)
     | None => sockets s
     end)
    (match reconnectTimeoutRef s with
     | Some h => <[h := None]> (timers s)
     | None => timers s
     end).

Definition disconnect_effects (s : State) : list Effect :=
  (match reconnectTimeoutRef s with
   | Some h => [ClearTimeout h]
   | None => []
   end ++
   match wsRef s with
   | Some id => [WsClose id 1000 "User disconnected"]
   | None => []
   end)%list.

(** *** The states [connect] leaves *)

(** After [connect] made a socket for [cl]. *)
Definition connecting_state (cl : Closure) (s : State) : State :=
  mkState (isConnected s) connecting (lastMessage s) (messages s)
    (Some (length (sockets s))) (reconnectTimeoutRef s) (reconnectAttemptsRef s)
    (sockets s ++ [mkWebSocket CONNECTING
                     (wsUrl (cl_sessionId cl) (cl_sessionType cl)) cl])%list
    (timers s).

(** After the [WebSocket] constructor threw. *)
Definition failed_state (s : State) : State :=
  mkState (isConnected s) error (lastMessage s) (messages s)
    (wsRef s) (reconnectTimeoutRef s) (reconnectAttemptsRef s)
    (sockets s) (timers s).

(** What [connect] may produce: console lines and one new socket. *)
Definition is_connect_effect (e : Effect) : bool :=
  match e with
  | ConsoleLog _ | ConsoleError _ | WsNew _ _ => true
  | _ => false
  end.

(** *** The message log *)

(** The state after [message] was recorded. *)
Definition received (message : jsval) (s : State) : State :=
  mkState (isConnected s) (connectionStatus s)
    (nullable message) (messages s ++ [message])%list
    (wsRef s) (reconnectTimeoutRef s) (reconnectAttemptsRef s)
    (sockets s) (timers s).

(** The state after [clearMessages]. *)
Definition cleared (s : State) : State :=
  mkState (isConnected s) (connectionStatus s) None []
    (wsRef s) (reconnectTimeoutRef s) (reconnectAttemptsRef s)
    (sockets s) (timers s).

(** The last message after the messages [ms] were recorded in turn. *)
Definition last_of (ms : list jsval) (old : option jsval) : option jsval :=
  match last ms with
  | Some m => nullable m
  | None => old
  end.

(** Everything but the message log and the last message. *)
Definition connection_of (s : State) : State :=
  mkState (isConnected s) (connectionStatus s) None []
    (wsRef s) (reconnectTimeoutRef s) (reconnectAttemptsRef s)
    (sockets s) (timers s).

(** *** States of runs *)

(** Every socket's handlers and every pending timer's callback close
    over credentials that passed [connect]'s guard. *)
Definition closures_authorised (s : State) : Prop :=
  Forall (fun sk => authorised (cl_auth (handlers sk)) = true) (sockets s) /\
  Forall (fun t => match t with
                   | Some cl => authorised (cl_auth cl) = true
                   | None => True
                   end) (timers s).

(** [isConnected] agrees with the status where the status decides it. *)
Definition flags_ok (s : State) : Prop :=
  match connectionStatus s with
  | connected => isConnected s = true
  | disconnected => isConnected s = false
  | connecting | error => True
  end.

(** What holds of the state after every run from [initial]. *)
Definition wf (s : State) : Prop :=
  (reconnectAttemptsRef s <= maxReconnectAttempts)%nat /\
  (forall id, wsRef s = Some id -> (id < length (sockets s))%nat) /\
  (forall h, reconnectTimeoutRef s = Some h -> (h < length (timers s))%nat) /\
  flags_ok s /\
  closures_authorised s.

(** *** Frames and delays of a run *)

(** The text frame [JSON.stringify({ type: 'auth', token: t })]. *)
Definition auth_frame_of (t : string) : Frame :=
  TextFrame (JSON_stringify (JObj [("type", JStr "auth"); ("token", JStr t)])).

(** The delay of a [setTimeout] effect lies between 2 and 30 seconds. *)
Definition delay_in_range (e : Effect) : bool :=
  match e with
  | SetTimeout _ d => (2000 <=? d) && (d <=? 30000)
  | _ => true
  end.

(** ** Properties *)

(** Runs the monad's plumbing and the setters, and nothing else. *)
Ltac prim :=
  cbv [bind ret throw try_catch get modify emit lift
       setIsConnected setConnectionStatus setLastMessage setMessages
       set_wsRef set_reconnectTimeoutRef set_reconnectAttemptsRef
       set_sockets set_timers
       console_log console_error toast_error toast_success].

(** *** Sending without an open socket *)

(** C7. For every payload, also one that [JSON.stringify] would throw
    on, [sendMessage] and [sendBinaryData] called while
    [wsRef.current?.readyState === WebSocket.OPEN] is false return normally,
    leave the whole state (refs, React state, sockets, timers) as it was,
    and produce exactly one console line and one error toast: no frame is
    put on the wire and nothing is kept for later. *)
Theorem send_when_not_open (message : any) (data : list Byte.byte) (s : State) :
  ws_is_open s = false ->
  sendMessage message s =
    mkOutcome (Ok tt) s
      [ConsoleError [LVal (JStr "WebSocket is not connected")];
       ToastError (JStr "Connection lost. Please reconnect.")]
  /\ sendBinaryData data s =
    mkOutcome (Ok tt) s
      [ConsoleError [LVal (JStr "WebSocket is not connected")];
       ToastError (JStr "Connection lost. Please reconnect.")].
Proof.
  intros Hclosed. unfold sendMessage, sendBinaryData, bind, get; simpl.
  rewrite Hclosed. split; reflexivity.
Qed.

(** *** Connecting *)

(** C9. [connect] called while [wsRef.current] is an open socket returns
    normally with the state untouched (no new socket in the table, same
    status, counter, message log) and only writes a console line; a second
    call therefore does the same. *)
Theorem connect_when_open_noop (a : Auth) (sessionId : string)
    (sessionType : SessionType) (s : State) :
  ws_is_open s = true ->
  let r := connect a sessionId sessionType s in
  res r = Ok tt /\ st r = s /\
  out r =
    (if authorised a
     then [ConsoleLog [LVal (JStr "WebSocket already connected")]]
     else [ConsoleError [LVal (JStr "Cannot connect WebSocket: User not authenticated")]]) /\
  connect a sessionId sessionType (st r) = r.
Proof.
  intros Hopen.
  assert (Hr : connect a sessionId sessionType s =
    mkOutcome (Ok tt) s
      (if authorised a
       then [ConsoleLog [LVal (JStr "WebSocket already connected")]]
       else [ConsoleError [LVal (JStr "Cannot connect WebSocket: User not authenticated")]])).
  { unfold connect, connect_as, authorised; simpl.
    destruct (isAuthenticated a), (no_token a); simpl; try reflexivity.
    unfold bind, get; simpl. rewrite Hopen. reflexivity. }
  simpl. rewrite Hr. simpl. rewrite Hr. auto.
Qed.

(** C8 (as amended). [connect] called by a render that is not
    authenticated, or whose token is absent or empty, returns normally,
    leaves the state untouched and writes one [console.error] line; it
    shows no toast. *)
Theorem connect_unauthenticated (a : Auth) (sessionId : string)
    (sessionType : SessionType) (s : State) :
  authorised a = false ->
  connect a sessionId sessionType s =
    mkOutcome (Ok tt) s
      [ConsoleError [LVal (JStr "Cannot connect WebSocket: User not authenticated")]].
Proof.
  unfold authorised, connect, connect_as; simpl. intros Hna.
  destruct (isAuthenticated a), (no_token a); simpl in *;
    reflexivity || discriminate.
Qed.

(** *** Inbound frames *)

(** C6. When [JSON.parse] rejects the payload, the [onmessage] handler
    returns normally with the state untouched (message log, last message,
    connection status and everything else) and its single effect is the
    [console.error] line; [handleWebSocketMessage] is not reached, so no
    toast is shown.  The same holds for the whole turn of the event loop. *)
Theorem unparseable_frame_dropped (id : nat) (data : string) (s : State) :
  JSON_parse data = None ->
  onmessage data s =
    mkOutcome (Ok tt) s
      [ConsoleError [LVal (JStr "Error parsing WebSocket message:"); LExn SyntaxError]]
  /\ st (deliver (SockMessage id data) s) = s
  /\ forallb (fun e => negb (is_toast e)) (out (deliver (SockMessage id data) s)) = true.
Proof.
  intros Hbad.
  assert (Hon : onmessage data s =
    mkOutcome (Ok tt) s
      [ConsoleError [LVal (JStr "Error parsing WebSocket message:"); LExn SyntaxError]]).
  { unfold onmessage, try_catch, bind. rewrite Hbad. reflexivity. }
  split; [exact Hon|].
  unfold deliver, bind, get; simpl.
  destruct (sockets s !! id); simpl; [rewrite Hon|]; split; reflexivity.
Qed.

(** The dispatch on [message.type] never writes the state and only logs
    or shows a toast, whatever it is given and whether or not it throws. *)
Lemma handleWebSocketMessage_frame (message : jsval) (s : State) :
  st (handleWebSocketMessage message s) = s /\
  forallb is_notice (out (handleWebSocketMessage message s)) = true.
Proof.
  unfold handleWebSocketMessage, bind, lift.
  destruct (get_prop message "type") as [e | ty]; simpl; [auto|].
  destruct ty; simpl; auto.
  repeat match goal with
         | |- context [if String.eqb ?a ?b then _ else _] =>
             destruct (String.eqb a b); simpl; auto
         end;
    match goal with
    | |- context [get_prop message ?k] =>
        destruct (get_prop message k) as [e | v]; simpl; auto;
        try (destruct (truthy v); simpl; auto)
    end.
Qed.

(** C10. For every payload that [JSON.parse] accepts, the [onmessage]
    handler returns normally; afterwards the message log is the old one
    with the message appended, the last message is that message, and the
    connection flags, the socket ref, the timer ref, the attempt counter
    and the browser's sockets and timers are what they were; every effect
    is a console line or a toast.  The dispatch itself changes nothing. *)
Theorem parsed_message_frame (data : string) (message : jsval) (s : State) :
  JSON_parse data = Some message ->
  let r := onmessage data s in
  res r = Ok tt /\
  st r = mkState (isConnected s) (connectionStatus s)
           (nullable message) (messages s ++ [message])%list
           (wsRef s) (reconnectTimeoutRef s) (reconnectAttemptsRef s)
           (sockets s) (timers s) /\
  forallb is_notice (out r) = true /\
  (forall s', st (handleWebSocketMessage message s') = s').
Proof.
  intros Hparse.
  set (s1 := mkState (isConnected s) (connectionStatus s)
               (nullable message) (messages s ++ [message])%list
               (wsRef s) (reconnectTimeoutRef s) (reconnectAttemptsRef s)
               (sockets s) (timers s)).
  destruct (handleWebSocketMessage_frame message s1) as [Hst Hout].
  unfold onmessage, try_catch, bind. rewrite Hparse. simpl.
  fold s1.
  destruct (handleWebSocketMessage message s1) as [[[] | e] s2 o2];
    cbn [res st out] in *; subst s2;
    rewrite ?forallb_app, ?Hout;
    (split; [reflexivity | split; [reflexivity | split; [reflexivity |]]]);
    intros s'; apply handleWebSocketMessage_frame.
Qed.

(** *** Reconnecting *)

Lemma attemptReconnect_schedules (cl : Closure) (s : State) :
  (reconnectAttemptsRef s < maxReconnectAttempts)%nat ->
  attemptReconnect cl s =
    mkOutcome (Ok tt) (scheduled cl s)
      [attempt_line (S (reconnectAttemptsRef s));
       SetTimeout (length (timers s)) (backoff (S (reconnectAttemptsRef s)))].
Proof.
  intros Hlt. unfold attemptReconnect, setTimeout. prim.
  destruct (Nat.leb_spec maxReconnectAttempts (reconnectAttemptsRef s)) as [Hge | _];
    [lia | reflexivity].
Qed.

Lemma attemptReconnect_exhausted (cl : Closure) (s : State) :
  (maxReconnectAttempts <= reconnectAttemptsRef s)%nat ->
  attemptReconnect cl s =
    mkOutcome (Ok tt) s
      [ToastError (JStr "Unable to reconnect. Please refresh the page.")].
Proof.
  intros Hge. unfold attemptReconnect. prim.
  destruct (Nat.leb_spec maxReconnectAttempts (reconnectAttemptsRef s)) as [_ | Hlt];
    [reflexivity | lia].
Qed.

(** What the [onclose] handler does, in one equation. *)
Lemma onclose_eq (cl : Closure) (code : Z) (reason : string) (s : State) :
  onclose cl code reason s =
    if negb (code =? 1000) && (reconnectAttemptsRef s <? maxReconnectAttempts)%nat
    then mkOutcome (Ok tt) (scheduled cl (closed_state s))
           [close_line code reason;
            attempt_line (S (reconnectAttemptsRef s));
            SetTimeout (length (timers s)) (backoff (S (reconnectAttemptsRef s)))]
    else mkOutcome (Ok tt) (closed_state s) [close_line code reason].
Proof.
  unfold onclose. prim. cbn [reconnectAttemptsRef].
  fold (closed_state s).
  destruct (negb (code =? 1000)); cbn [andb]; [|reflexivity].
  destruct (Nat.ltb_spec (reconnectAttemptsRef s) maxReconnectAttempts) as [Hlt | Hge];
    [|reflexivity].
  rewrite attemptReconnect_schedules by exact Hlt. reflexivity.
Qed.

(** C2. For the attempt numbered [k] between 1 and 5, that is, when
    [attemptReconnect] runs with the counter at [k - 1], the counter
    becomes [k] and exactly one timer is set, for the closure given and
    with delay [min (1000 * 2^k) 30000] milliseconds: 2000 for the first
    attempt, 4000 for the second, 30000 for the fifth. *)
Theorem backoff_delay (k : nat) (cl : Closure) (s : State) :
  (1 <= k <= 5)%nat ->
  S (reconnectAttemptsRef s) = k ->
  let r := attemptReconnect cl s in
  reconnectAttemptsRef (st r) = k /\
  List.filter is_SetTimeout (out r) =
    [SetTimeout (length (timers s)) (Z.min (1000 * 2 ^ Z.of_nat k) 30000)] /\
  timers (st r) !! length (timers s) = Some (Some cl) /\
  (k = 1%nat -> Z.min (1000 * 2 ^ Z.of_nat k) 30000 = 2000) /\
  (k = 2%nat -> Z.min (1000 * 2 ^ Z.of_nat k) 30000 = 4000) /\
  (k = 5%nat -> Z.min (1000 * 2 ^ Z.of_nat k) 30000 = 30000).
Proof.
  intros Hk Hcount r. subst r.
  rewrite attemptReconnect_schedules by (unfold maxReconnectAttempts; lia).
  cbn [res st out scheduled timers reconnectAttemptsRef attempt_line
       List.filter is_SetTimeout].
  rewrite Hcount. unfold backoff.
  split; [reflexivity|]. split; [reflexivity|].
  split; [apply list_lookup_middle; reflexivity|].
  repeat split; intros ->; reflexivity.
Qed.

(** *** Rules for [keeps] *)

Section Keeps.

Variable I : State -> Prop.
Variable Q : Effect -> bool.

Lemma keeps_ret {A} (a : A) : keeps I Q (ret a).
Proof. intros s Hs. split; [exact Hs | reflexivity]. Qed.

Lemma keeps_throw {A} (e : Exn) : keeps I Q (@throw A e).
Proof. intros s Hs. split; [exact Hs | reflexivity]. Qed.

Lemma keeps_get : keeps I Q get.
Proof. intros s Hs. split; [exact Hs | reflexivity]. Qed.

Lemma keeps_lift {A} (x : Exn + A) : keeps I Q (lift x).
Proof. destruct x; [apply keeps_throw | apply keeps_ret]. Qed.

Lemma keeps_emit (e : Effect) : Q e = true -> keeps I Q (emit e).
Proof. intros He s Hs. split; [exact Hs | simpl; rewrite He; reflexivity]. Qed.

Lemma keeps_modify (f : State -> State) :
  (forall s, I s -> I (f s)) -> keeps I Q (modify f).
Proof. intros Hf s Hs. split; [apply Hf, Hs | reflexivity]. Qed.

Lemma keeps_bind {A B} (m : M A) (k : A -> M B) :
  keeps I Q m -> (forall a, keeps I Q (k a)) -> keeps I Q (bind m k).
Proof.
  intros Hm Hk s Hs. destruct (Hm s Hs) as [Hs1 Ho1]. unfold bind.
  destruct (m s) as [[a | e] s1 o1]; cbn [st out] in *.
  - destruct (Hk a _ Hs1) as [Hs2 Ho2].
    destruct (k a s1) as [r s2 o2]; cbn [st out] in *.
    split; [exact Hs2 | rewrite forallb_app, Ho1, Ho2; reflexivity].
  - split; assumption.
Qed.

Lemma keeps_try_catch {A} (body : M A) (handler : Exn -> M A) :
  keeps I Q body -> (forall e, keeps I Q (handler e)) ->
  keeps I Q (try_catch body handler).
Proof.
  intros Hm Hk s Hs. destruct (Hm s Hs) as [Hs1 Ho1]. unfold try_catch.
  destruct (body s) as [[a | e] s1 o1]; cbn [st out] in *.
  - split; assumption.
  - destruct (Hk e _ Hs1) as [Hs2 Ho2].
    destruct (handler e s1) as [r s2 o2]; cbn [st out] in *.
    split; [exact Hs2 | rewrite forallb_app, Ho1, Ho2; reflexivity].
Qed.

End Keeps.

Create HintDb provider.

#[local] Hint Unfold connect connect_as disconnect sendMessage sendBinaryData
  clearMessages onopen onmessage onclose onerror attemptReconnect
  handleWebSocketMessage new_WebSocket ws_send ws_close setTimeout clearTimeout
  set_readyState setIsConnected setConnectionStatus setLastMessage setMessages
  set_wsRef set_reconnectTimeoutRef set_reconnectAttemptsRef set_sockets
  set_timers console_log console_error toast_error toast_success deliver
  : provider.

(** Walks through an action, leaving the side conditions of [modify]
    (the invariant survives the write) and of [emit] (the effect is
    allowed). *)
Ltac keeps_walk :=
  repeat first
    [ apply keeps_ret
    | apply keeps_throw
    | apply keeps_get
    | apply keeps_lift
    | apply keeps_bind; [| intros ?]
    | apply keeps_try_catch; [| intros ?]
    | apply keeps_emit
    | apply keeps_modify; intros ? ?
    | match goal with
      | |- keeps _ _ (match ?x with _ => _ end) => destruct x
      end
    | progress autounfold with provider ].

(** *** Timers that are spent stay spent *)

Lemma spent_append (h : nat) (l : list (option Closure)) (cb : option Closure) :
  l !! h = Some None -> (l ++ [cb])%list !! h = Some None.
Proof. intros Hl. apply lookup_app_l_Some, Hl. Qed.

Lemma spent_insert (h h' : nat) (l : list (option Closure)) :
  l !! h = Some None -> <[h' := None]> l !! h = Some None.
Proof.
  intros Hl. destruct (decide (h' = h)) as [-> | Hne].
  - apply list_lookup_insert_eq. eapply lookup_lt_Some, Hl.
  - rewrite list_lookup_insert_ne by exact Hne. exact Hl.
Qed.

Lemma deliver_keeps_spent (h : nat) (e : Event) :
  keeps (spent h) (fun _ => true) (deliver e).
Proof.
  destruct e; keeps_walk; try reflexivity;
    unfold spent in *; cbn [timers];
    auto using spent_append, spent_insert.
Qed.

Lemma run_keeps_spent (h : nat) (evs : list Event) (s : State) :
  spent h s -> spent h (fst (run evs s)).
Proof.
  revert s. induction evs as [| e evs IH]; intros s Hs; [exact Hs|].
  cbn [run].
  destruct (deliver_keeps_spent h e s Hs) as [Hs1 _].
  specialize (IH _ Hs1).
  destruct (run evs (st (deliver e s))) as [s' o]. exact IH.
Qed.

Lemma spent_timer_is_inert (h : nat) (s : State) :
  spent h s -> deliver (TimerFire h) s = mkOutcome (Ok tt) s [].
Proof.
  unfold spent. intros Hs. unfold deliver. prim.
  rewrite Hs. reflexivity.
Qed.

(** *** Disconnecting *)

Lemma disconnect_eq (s : State) :
  disconnect s = mkOutcome (Ok tt) (disconnected_state s) (disconnect_effects s).
Proof.
  destruct s as [ic cs lm ms w t n socks tms].
  unfold disconnect, clearTimeout, ws_close, set_readyState,
    disconnected_state, disconnect_effects, closing.
  destruct t as [h |], w as [id |]; prim;
    cbn [wsRef reconnectTimeoutRef sockets timers lastMessage messages];
    try reflexivity;
    destruct (readyState <$> socks !! id) as [[] |]; reflexivity.
Qed.

(** What [disconnect] does for the handle and the socket its refs hold.
    From every state, it returns normally and leaves
    [isConnected = false], status [disconnected], the counter at 0 and both
    refs empty.  Its effects are [clearTimeout] on the handle the timer ref
    held (if any) followed by [close(1000, 'User disconnected')] on the
    socket the socket ref held (if any).  Calling it again changes nothing
    and has no effect.  A reconnect timer that was pending under the handle
    in the ref is no longer pending after the call nor after any later
    events: its expiry never runs [connect].  When the ref accounts for
    every pending timer, none is pending after the call. *)
Theorem disconnect_spec (s : State) :
  let r := disconnect s in
  res r = Ok tt /\
  isConnected (st r) = false /\
  connectionStatus (st r) = disconnected /\
  reconnectAttemptsRef (st r) = 0%nat /\
  wsRef (st r) = None /\
  reconnectTimeoutRef (st r) = None /\
  out r =
    (match reconnectTimeoutRef s with
     | Some h => [ClearTimeout h]
     | None => []
     end ++
     match wsRef s with
     | Some id => [WsClose id 1000 "User disconnected"]
     | None => []
     end)%list /\
  disconnect (st r) = mkOutcome (Ok tt) (st r) [] /\
  (forall h, reconnectTimeoutRef s = Some h -> pending s h = true ->
     forall evs, let s' := fst (run evs (st r)) in
       pending s' h = false /\
       deliver (TimerFire h) s' = mkOutcome (Ok tt) s' []) /\
  ((forall h, pending s h = true -> reconnectTimeoutRef s = Some h) ->
   forall h, pending (st r) h = false).
Proof.
  intros r. subst r. rewrite disconnect_eq. cbn [res st out].
  do 8 (split; [reflexivity|]).
  split.
  - intros h Href Hpend evs.
    set (s' := fst (run evs (disconnected_state s))).
    assert (Hspent : spent h (disconnected_state s)).
    { unfold spent, disconnected_state; cbn [timers]. rewrite Href.
      apply list_lookup_insert_eq.
      unfold pending in Hpend.
      destruct (timers s !! h) eqn:E; [|discriminate]. eapply lookup_lt_Some, E. }
    assert (Hs' : spent h s') by (apply run_keeps_spent, Hspent).
    split; [|apply spent_timer_is_inert, Hs'].
    unfold pending. unfold spent in Hs'. rewrite Hs'. reflexivity.
  - intros Honly h.
    destruct (pending s h) eqn:Hp.
    + unfold pending, disconnected_state; cbn [timers].
      rewrite (Honly h Hp).
      rewrite list_lookup_insert_eq; [reflexivity|].
      unfold pending in Hp.
      destruct (timers s !! h) eqn:E; [|discriminate]. eapply lookup_lt_Some, E.
    + unfold pending, disconnected_state in *; cbn [timers].
      destruct (reconnectTimeoutRef s) as [h0 |]; [|exact Hp].
      destruct (decide (h0 = h)) as [-> | Hne].
      * destruct (timers s !! h) eqn:E.
        -- rewrite list_lookup_insert_eq by (eapply lookup_lt_Some, E). reflexivity.
        -- rewrite list_insert_ge, E; [reflexivity|].
           apply lookup_ge_None, E.
      * rewrite list_lookup_insert_ne by exact Hne. exact Hp.
Qed.

(** *** Opening *)

Lemma quiet_deliver (e : Event) :
  is_consumer_send e = false ->
  (forall id, e <> SockOpen id) ->
  keeps (fun _ => True) (fun x => negb (is_WsSend x)) (deliver e).
Proof.
  intros Hsend Hopen.
  destruct e; try discriminate Hsend; try (exfalso; eapply Hopen; reflexivity);
    keeps_walk; auto.
Qed.

Lemma deliver_SockOpen (id : nat) (sk : WebSocket) (s : State) :
  sockets s !! id = Some sk ->
  deliver (SockOpen id) s =
    let s1 := mkState true connected (lastMessage s) (messages s)
                (wsRef s) (reconnectTimeoutRef s) 0%nat
                (<[id := mkWebSocket OPEN (url sk) (handlers sk)]> (sockets s))
                (timers s) in
    match wsRef s with
    | Some id' =>
        match readyState <$> sockets s1 !! id' with
        | Some CONNECTING =>
            mkOutcome (Throw InvalidStateError) s1
              [ConsoleLog [LVal (JStr "WebSocket connected")]]
        | Some OPEN =>
            mkOutcome (Ok tt) s1
              [ConsoleLog [LVal (JStr "WebSocket connected")];
               WsSend id' (auth_frame (cl_auth (handlers sk)))]
        | _ => mkOutcome (Ok tt) s1 [ConsoleLog [LVal (JStr "WebSocket connected")]]
        end
    | None => mkOutcome (Ok tt) s1 [ConsoleLog [LVal (JStr "WebSocket connected")]]
    end.
Proof.
  intros Hsk. destruct s as [ic cs lm ms w t n socks tms]. cbn [sockets] in Hsk.
  unfold deliver, onopen, set_readyState, ws_send.
  cbv [bind get]; cbn. rewrite Hsk. cbn. rewrite Hsk.
  destruct w as [id' |]; cbn; [|reflexivity].
  destruct (readyState <$> _ !! id') as [[] |]; reflexivity.
Qed.

(** The open event of the socket that [wsRef] holds at that moment.
    When that socket opens, the handler returns
    normally with [isConnected = true], status [connected] and the counter
    at 0 whatever it was, and puts exactly one frame on the wire, on that
    socket: the stringified [{ type: 'auth', token }] with the token of the
    [connect] call that made the socket.  No other turn of the event loop
    sends a frame, except the consumer's own [sendMessage] and
    [sendBinaryData] calls. *)
Theorem open_resets_and_authenticates (id : nat) (sk : WebSocket) (s : State) :
  sockets s !! id = Some sk ->
  wsRef s = Some id ->
  let r := deliver (SockOpen id) s in
  res r = Ok tt /\
  isConnected (st r) = true /\
  connectionStatus (st r) = connected /\
  reconnectAttemptsRef (st r) = 0%nat /\
  List.filter is_WsSend (out r) = [WsSend id (auth_frame (cl_auth (handlers sk)))] /\
  forall e s0 id' f,
    is_consumer_send e = false ->
    In (WsSend id' f) (out (deliver e s0)) ->
    exists i k, e = SockOpen i /\ sockets s0 !! i = Some k
                /\ f = auth_frame (cl_auth (handlers k)).
Proof.
  intros Hsk Hw r. subst r.
  rewrite (deliver_SockOpen id sk s Hsk). cbn zeta. rewrite Hw.
  cbn [sockets].
  rewrite list_lookup_insert_eq by (eapply lookup_lt_Some, Hsk).
  cbn. repeat (split; [reflexivity|]).
  clear. intros e s0 id' f Hsend Hin.
  destruct (match e with SockOpen i => Some i | _ => None end) as [i |] eqn:He.
  - destruct e; try discriminate He. injection He as ->.
    destruct (sockets s0 !! i) as [k |] eqn:Hk.
    + exists i, k. split; [reflexivity|]. split; [exact Hk|].
      rewrite (deliver_SockOpen i k s0 Hk) in Hin. cbn zeta in Hin.
      destruct (wsRef s0) as [j |]; cbn in Hin.
      * destruct (readyState <$> _ !! j) as [[] |]; cbn in Hin;
          intuition (try discriminate); congruence.
      * intuition discriminate.
    + unfold deliver, bind, get in Hin; cbn in Hin. rewrite Hk in Hin.
      destruct Hin.
  - exfalso.
    assert (Hq : keeps (fun _ => True) (fun x => negb (is_WsSend x)) (deliver e)).
    { apply quiet_deliver; [exact Hsend|]. intros j ->. discriminate He. }
    destruct (Hq s0 Logic.I) as [_ Hall].
    rewrite forallb_forall in Hall. specialize (Hall _ Hin). discriminate Hall.
Qed.

(** *** Runs of failures *)

Lemma deliver_TimerFire (h : nat) (s : State) :
  reconnectAttemptsRef (st (deliver (TimerFire h) s)) = reconnectAttemptsRef s /\
  timeouts_set (out (deliver (TimerFire h) s)) = 0%nat.
Proof.
  assert (Hk : keeps (fun s' => reconnectAttemptsRef s' = reconnectAttemptsRef s)
                 (fun x => negb (is_SetTimeout x)) (deliver (TimerFire h))).
  { keeps_walk; auto. }
  destruct (Hk s eq_refl) as [Hn Hout]. split; [exact Hn|].
  unfold timeouts_set. induction (out (deliver (TimerFire h) s)) as [| x o IH];
    [reflexivity|].
  cbn in Hout. apply andb_true_iff in Hout as [Hx Ho].
  cbn. destruct (is_SetTimeout x); [discriminate Hx | exact (IH Ho)].
Qed.

Lemma deliver_SockClose_eq (id : nat) (sk : WebSocket) (code : Z) (reason : string)
    (s : State) :
  sockets s !! id = Some sk ->
  deliver (SockClose id code reason) s =
    onclose (handlers sk) code reason (st (set_readyState id CLOSED s)).
Proof.
  intros Hsk. unfold deliver. cbv [bind get]. rewrite Hsk.
  cbv [set_readyState set_sockets modify st].
  match goal with |- context [onclose ?c ?k ?r ?x] => destruct (onclose c k r x) end.
  reflexivity.
Qed.

Lemma deliver_SockClose (id : nat) (code : Z) (reason : string) (s : State) :
  unexpected_close s (SockClose id code reason) = true ->
  let r := deliver (SockClose id code reason) s in
  let n := reconnectAttemptsRef s in
  if (n <? maxReconnectAttempts)%nat
  then reconnectAttemptsRef (st r) = S n /\ timeouts_set (out r) = 1%nat
       /\ length (timers (st r)) = S (length (timers s))
  else reconnectAttemptsRef (st r) = n /\ timeouts_set (out r) = 0%nat
       /\ timers (st r) = timers s
       /\ forallb (fun x => negb (is_toast x)) (out r) = true.
Proof.
  unfold unexpected_close. intros Hux.
  destruct (sockets s !! id) as [sk |] eqn:Hsk; [|discriminate].
  cbn zeta. rewrite (deliver_SockClose_eq id sk code reason s Hsk), onclose_eq.
  cbv [set_readyState set_sockets modify st]. cbn [reconnectAttemptsRef timers].
  rewrite Hux. cbn [andb].
  destruct (reconnectAttemptsRef s <? maxReconnectAttempts)%nat;
    cbn [res st out scheduled closed_state reconnectAttemptsRef timers];
    repeat split; try reflexivity.
  rewrite length_app. cbn. lia.
Qed.

Lemma failures_run (evs : list Event) (s : State) :
  failures_only evs s = true ->
  (reconnectAttemptsRef s <= maxReconnectAttempts)%nat ->
  reconnectAttemptsRef (fst (run evs s))
    = Nat.min (reconnectAttemptsRef s + closures evs) maxReconnectAttempts /\
  (timeouts_set (snd (run evs s)) + reconnectAttemptsRef s)%nat
    = Nat.min (reconnectAttemptsRef s + closures evs) maxReconnectAttempts.
Proof.
  revert s. induction evs as [| e evs IH]; intros s Hev Hle.
  - cbn. unfold closures; cbn. lia.
  - cbn [failures_only] in Hev. apply andb_true_iff in Hev as [He Hev].
    specialize (IH _ Hev). cbn [run].
    destruct (run evs (st (deliver e s))) as [s' o] eqn:Hrun.
    cbn [fst snd] in *. unfold timeouts_set in *.
    rewrite List.filter_app, length_app.
    apply orb_true_iff in He as [Hclose | Hfire].
    + destruct e; try discriminate Hclose.
      pose proof (deliver_SockClose _ _ _ _ Hclose) as Hd. cbn zeta in Hd.
      unfold closures in *. cbn [List.filter is_SockClose length].
      unfold timeouts_set in Hd.
      destruct (Nat.ltb_spec (reconnectAttemptsRef s) maxReconnectAttempts)
        as [Hlt | Hge].
      * destruct Hd as (Hn & Ht & _). rewrite Hn, Ht in *.
        destruct IH as [IH1 IH2]; [lia|]. lia.
      * destruct Hd as (Hn & Ht & _). rewrite Hn, Ht in *.
        destruct IH as [IH1 IH2]; [lia|]. lia.
    + destruct e; try discriminate Hfire.
      destruct (deliver_TimerFire h s) as [Hn Ht]. unfold timeouts_set in Ht.
      unfold closures in *. cbn [List.filter is_SockClose].
      rewrite Hn, Ht in *.
      destruct IH as [IH1 IH2]; [lia|]. lia.
Qed.

(** C1. In every run made only of unexpected closures (a close event
    with a code other than 1000 on a socket of the provider) and of the
    timer expiries that call [connect] again, started with the counter at
    0, the counter ends at [min N 5] where [N] is the number of closures,
    and [min N 5] timers are set in total.  A closure that finds the
    counter at 5 sets no timer, leaves the timer table alone and keeps the
    counter at 5. *)
Theorem reconnect_counter_capped (evs : list Event) (s : State) :
  failures_only evs s = true ->
  reconnectAttemptsRef s = 0%nat ->
  reconnectAttemptsRef (fst (run evs s)) = Nat.min (closures evs) 5 /\
  timeouts_set (snd (run evs s)) = Nat.min (closures evs) 5 /\
  forall s0 e,
    reconnectAttemptsRef s0 = 5%nat ->
    unexpected_close s0 e = true ->
    timeouts_set (out (deliver e s0)) = 0%nat /\
    timers (st (deliver e s0)) = timers s0 /\
    reconnectAttemptsRef (st (deliver e s0)) = 5%nat.
Proof.
  intros Hev Hzero.
  destruct (failures_run evs s Hev) as [Hn Ht].
  { rewrite Hzero. unfold maxReconnectAttempts. lia. }
  rewrite Hzero in *. cbn [Nat.add] in *. rewrite Nat.add_0_r in Ht.
  split; [exact Hn|]. split; [exact Ht|].
  clear. intros s0 e Hmax Hclose.
  destruct e; try discriminate Hclose.
  pose proof (deliver_SockClose _ _ _ _ Hclose) as Hd. cbn zeta in Hd.
  rewrite Hmax in Hd. cbn in Hd. tauto.
Qed.

(** ** Further properties of the provider *)

(** *** [connect] *)

(** The four ways [connect] can go. *)
Lemma connect_as_eq (cl : Closure) (s : State) :
  connect_as cl s =
    if negb (authorised (cl_auth cl)) then
      mkOutcome (Ok tt) s
        [ConsoleError [LVal (JStr "Cannot connect WebSocket: User not authenticated")]]
    else if ws_is_open s then
      mkOutcome (Ok tt) s [ConsoleLog [LVal (JStr "WebSocket already connected")]]
    else if ws_url_ok (wsUrl (cl_sessionId cl) (cl_sessionType cl)) then
      mkOutcome (Ok tt) (connecting_state cl s)
        [WsNew (length (sockets s)) (wsUrl (cl_sessionId cl) (cl_sessionType cl))]
    else
      mkOutcome (Ok tt) (failed_state s)
        [ConsoleError [LVal (JStr "Error creating WebSocket connection:");
                       LExn SyntaxError]].
Proof.
  unfold connect_as, authorised, new_WebSocket.
  destruct (isAuthenticated (cl_auth cl)), (no_token (cl_auth cl));
    cbn [negb orb andb]; try reflexivity.
  prim. destruct (ws_is_open s); [reflexivity|].
  destruct (ws_url_ok _); reflexivity.
Qed.

(** X1. An authorised [connect] that finds no open socket and whose URL
    the [WebSocket] constructor accepts returns normally, sets the status
    to [connecting], appends one socket in state [CONNECTING] for the URL
    of the session and makes [wsRef] hold it.  The socket's handlers close
    over the caller's credentials and session.  Nothing else changes and
    the only effect is the construction of that socket. *)
Theorem connect_creates_socket (a : Auth) (sessionId : string)
    (sessionType : SessionType) (s : State) :
  authorised a = true ->
  ws_is_open s = false ->
  ws_url_ok (wsUrl sessionId sessionType) = true ->
  connect a sessionId sessionType s =
    mkOutcome (Ok tt)
      (mkState (isConnected s) connecting (lastMessage s) (messages s)
         (Some (length (sockets s))) (reconnectTimeoutRef s)
         (reconnectAttemptsRef s)
         (sockets s ++ [mkWebSocket CONNECTING (wsUrl sessionId sessionType)
                          (mkClosure a sessionId sessionType)])%list
         (timers s))
      [WsNew (length (sockets s)) (wsUrl sessionId sessionType)].
Proof.
  intros Ha Hopen Hurl. unfold connect. rewrite connect_as_eq.
  cbn [cl_auth cl_sessionId cl_sessionType]. rewrite Ha, Hopen, Hurl. reflexivity.
Qed.

(** X2. When the [WebSocket] constructor rejects the URL, an authorised
    [connect] still returns normally: the exception is caught, the status
    becomes [error], one [console.error] line is written, and the socket
    ref, the socket table, the counter and the timers are untouched.  No
    toast is shown and no reconnect is armed. *)
Theorem connect_constructor_throws (a : Auth) (sessionId : string)
    (sessionType : SessionType) (s : State) :
  authorised a = true ->
  ws_is_open s = false ->
  ws_url_ok (wsUrl sessionId sessionType) = false ->
  connect a sessionId sessionType s =
    mkOutcome (Ok tt)
      (mkState (isConnected s) error (lastMessage s) (messages s)
         (wsRef s) (reconnectTimeoutRef s) (reconnectAttemptsRef s)
         (sockets s) (timers s))
      [ConsoleError [LVal (JStr "Error creating WebSocket connection:");
                     LExn SyntaxError]].
Proof.
  intros Ha Hopen Hurl. unfold connect. rewrite connect_as_eq.
  cbn [cl_auth cl_sessionId cl_sessionType]. rewrite Ha, Hopen, Hurl. reflexivity.
Qed.

(** X3. Whatever the state and the arguments, [connect] returns normally
    and leaves the counter, the timer ref, the timer table, the message
    log, the last message and [isConnected] as they were.  It never
    removes or alters a socket (the old table is a prefix of the new one,
    so a socket that [wsRef] held before is neither closed nor detached),
    and its effects are console lines and at most the construction of one
    socket: no frame, no [close], no timer. *)
Theorem connect_frame (a : Auth) (sessionId : string)
    (sessionType : SessionType) (s : State) :
  let r := connect a sessionId sessionType s in
  res r = Ok tt /\
  reconnectAttemptsRef (st r) = reconnectAttemptsRef s /\
  reconnectTimeoutRef (st r) = reconnectTimeoutRef s /\
  timers (st r) = timers s /\
  messages (st r) = messages s /\
  lastMessage (st r) = lastMessage s /\
  isConnected (st r) = isConnected s /\
  sockets s `prefix_of` sockets (st r) /\
  (length (sockets (st r)) <= S (length (sockets s)))%nat /\
  forallb is_connect_effect (out r) = true.
Proof.
  intros r. subst r. unfold connect. rewrite connect_as_eq.
  destruct (negb _); [|destruct (ws_is_open s); [|destruct (ws_url_ok _)]];
    cbn [res st out connecting_state failed_state reconnectAttemptsRef
         reconnectTimeoutRef timers messages lastMessage isConnected sockets];
    repeat split; try reflexivity; try lia;
    try (apply prefix_app_r; reflexivity).
  rewrite length_app. cbn. lia.
Qed.

Lemma append_inj_l (a x y : string) : a +:+ x = a +:+ y -> x = y.
Proof.
  induction a as [| c a IH]; cbn; intros H; [exact H|].
  injection H as H. exact (IH H).
Qed.

(** X4. The endpoint determines the session: two [connect] calls are
    given the same URL only if they name the same session id and the same
    session type.  In particular an interview session and a coding session
    never share an endpoint. *)
Theorem wsUrl_injective (sessionId sessionId' : string)
    (sessionType sessionType' : SessionType) :
  wsUrl sessionId sessionType = wsUrl sessionId' sessionType' ->
  sessionId = sessionId' /\ sessionType = sessionType'.
Proof.
  unfold wsUrl. intros H.
  destruct sessionType, sessionType'; apply append_inj_l in H;
    try (cbn in H; discriminate H);
    (split; [|reflexivity]);
    eapply append_inj_l; exact H.
Qed.

(** *** Sending *)

Lemma ws_is_open_inv (s : State) :
  ws_is_open s = true ->
  exists id sk, wsRef s = Some id /\ sockets s !! id = Some sk
                /\ readyState sk = OPEN.
Proof.
  unfold ws_is_open. intros H.
  destruct (wsRef s) as [id |]; [|discriminate].
  destruct (sockets s !! id) as [sk |] eqn:Hsk; [|discriminate].
  exists id, sk. split; [reflexivity|]. split; [exact Hsk|].
  destruct (readyState sk); try discriminate H; reflexivity.
Qed.

(** X5. While the socket in [wsRef] is open, [sendMessage] puts exactly
    one text frame on it, the stringified message, when [JSON.stringify]
    serializes the message; when [JSON.stringify] throws, the exception
    escapes [sendMessage] and no frame is sent.  [sendBinaryData] puts
    exactly one binary frame on the socket, carrying the bytes as given.
    In every case the state is unchanged and no notice is shown. *)
Theorem send_when_open (message : any) (data : list Byte.byte) (s : State) :
  ws_is_open s = true ->
  exists id,
    wsRef s = Some id /\
    sendMessage message s =
      match message with
      | Plain v => mkOutcome (Ok tt) s [WsSend id (TextFrame (JSON_stringify v))]
      | Throwing e => mkOutcome (Throw e) s []
      end /\
    sendBinaryData data s =
      mkOutcome (Ok tt) s [WsSend id (BinaryFrame data)].
Proof.
  intros Hopen.
  destruct (ws_is_open_inv s Hopen) as (id & sk & Hw & Hsk & Hr).
  assert (Hrs : readyState <$> sockets s !! id = Some OPEN)
    by (rewrite Hsk; cbn; rewrite Hr; reflexivity).
  exists id. split; [exact Hw|].
  unfold sendMessage, sendBinaryData, ws_send. prim.
  rewrite Hopen, Hw.
  destruct message; rewrite ?Hrs; split; reflexivity.
Qed.

(** *** Errors and closures *)

(** X6. A transport error on a socket of the provider sets the status
    to [error] and shows one toast, and does nothing else: [isConnected],
    the refs, the counter, the sockets and the timers stay as they were.
    So no reconnect is armed by the error itself, and a socket that was
    open can still be sent on. *)
Theorem error_does_not_retry (id : nat) (sk : WebSocket) (s : State) :
  sockets s !! id = Some sk ->
  deliver (SockError id) s =
    mkOutcome (Ok tt)
      (mkState (isConnected s) error (lastMessage s) (messages s)
         (wsRef s) (reconnectTimeoutRef s) (reconnectAttemptsRef s)
         (sockets s) (timers s))
      [ConsoleError [LVal (JStr "WebSocket error:"); LEvent];
       ToastError (JStr "Connection error. Please check your internet connection.")]
  /\ ws_is_open (st (deliver (SockError id) s)) = ws_is_open s.
Proof.
  intros Hsk. unfold deliver, onerror. prim. rewrite Hsk. cbn.
  split; reflexivity.
Qed.

(** X7. A close event with the normal-closure code 1000 never arms a
    reconnect, whatever the counter: the handler sets [isConnected] to
    false and the status to [disconnected], writes its console line and
    stops.  The counter is left as it was (it is not reset), and so are
    the refs and the timers. *)
Theorem normal_closure_is_final (cl : Closure) (reason : string) (s : State) :
  onclose cl 1000 reason s =
    mkOutcome (Ok tt)
      (mkState false disconnected (lastMessage s) (messages s)
         (wsRef s) (reconnectTimeoutRef s) (reconnectAttemptsRef s)
         (sockets s) (timers s))
      [ConsoleLog [LVal (JStr "WebSocket disconnected:"); LVal (JNum 1000 0);
                   LVal (JStr reason)]].
Proof. rewrite onclose_eq. reflexivity. Qed.

(** X8. [disconnect] does not detach the handlers of the socket it
    closes.  If the close event of that socket then arrives with a code
    other than 1000, the handler finds the counter at 0 and arms a
    reconnect: the counter becomes 1 and a timer of 2000 ms is set for the
    socket's session, pending under the handle now in the timer ref. *)
Theorem abnormal_close_after_disconnect (id : nat) (sk : WebSocket) (code : Z)
    (reason : string) (s : State) :
  wsRef s = Some id ->
  sockets s !! id = Some sk ->
  code <> 1000 ->
  let s1 := st (disconnect s) in
  let r := deliver (SockClose id code reason) s1 in
  reconnectAttemptsRef (st r) = 1%nat /\
  List.filter is_SetTimeout (out r) = [SetTimeout (length (timers s)) 2000] /\
  reconnectTimeoutRef (st r) = Some (length (timers s)) /\
  timers (st r) !! length (timers s) = Some (Some (handlers sk)) /\
  wsRef (st r) = None /\
  connectionStatus (st r) = disconnected.
Proof.
  intros Hw Hsk Hcode s1 r. subst r s1. rewrite disconnect_eq. cbn [st].
  assert (Hlen : length (timers (disconnected_state s)) = length (timers s)).
  { unfold disconnected_state; cbn [timers].
    destruct (reconnectTimeoutRef s); [apply length_insert | reflexivity]. }
  assert (Hsk' : exists sk', sockets (disconnected_state s) !! id = Some sk'
                             /\ handlers sk' = handlers sk).
  { unfold disconnected_state; cbn [sockets]. rewrite Hw. unfold closing.
    rewrite Hsk. cbn.
    destruct (readyState sk);
      [eexists; split;
         [apply list_lookup_insert_eq; eapply lookup_lt_Some, Hsk | reflexivity]
      |eexists; split;
         [apply list_lookup_insert_eq; eapply lookup_lt_Some, Hsk | reflexivity]
      |exists sk; split; [exact Hsk | reflexivity]
      |exists sk; split; [exact Hsk | reflexivity]]. }
  destruct Hsk' as (sk' & Hsk' & Hh).
  rewrite (deliver_SockClose_eq id sk' code reason _ Hsk'), onclose_eq.
  cbv [set_readyState set_sockets modify st].
  cbn [reconnectAttemptsRef timers disconnected_state].
  assert (Hne : negb (code =? 1000) = true).
  { apply negb_true_iff, Z.eqb_neq, Hcode. }
  rewrite Hne. cbn [andb Nat.ltb Nat.leb maxReconnectAttempts].
  cbn [res st out scheduled closed_state reconnectAttemptsRef timers
       reconnectTimeoutRef wsRef connectionStatus List.filter is_SetTimeout
       close_line attempt_line].
  fold (timers (disconnected_state s)).
  change (match reconnectTimeoutRef s with
          | Some h => <[h:=None]> (timers s)
          | None => timers s
          end) with (timers (disconnected_state s)).
  rewrite Hlen, Hh.
  repeat split.
  rewrite <- Hlen. apply list_lookup_middle. reflexivity.
Qed.

(** *** Inbound messages *)

Lemma onmessage_st (data : string) (s : State) :
  st (onmessage data s) =
    match JSON_parse data with
    | Some message => received message s
    | None => s
    end.
Proof.
  unfold onmessage, try_catch, bind.
  destruct (JSON_parse data) as [message |]; [|reflexivity].
  cbn. fold (received message s).
  destruct (handleWebSocketMessage_frame message (received message s)) as [Hst _].
  destruct (handleWebSocketMessage message (received message s))
    as [[[] | e] s2 o2]; cbn [st] in *; exact Hst.
Qed.

Lemma deliver_SockMessage_st (id : nat) (sk : WebSocket) (data : string) (s : State) :
  sockets s !! id = Some sk ->
  st (deliver (SockMessage id data) s) = st (onmessage data s).
Proof.
  intros Hsk. unfold deliver. cbv [bind get]. rewrite Hsk.
  destruct (onmessage data s) as [[[] | e] s2 o2]; reflexivity.
Qed.

Lemma receive_run (id : nat) (sk : WebSocket) (frames : list string) (s : State) :
  sockets s !! id = Some sk ->
  let s' := fst (run (map (SockMessage id) frames) s) in
  messages s' = (messages s ++ omap JSON_parse frames)%list /\
  lastMessage s' = last_of (omap JSON_parse frames) (lastMessage s) /\
  connection_of s' = connection_of s.
Proof.
  revert s. induction frames as [| d frames IH]; intros s Hsk.
  - cbn. rewrite app_nil_r. auto.
  - cbn [map run].
    pose proof (deliver_SockMessage_st id sk d s Hsk) as Hst.
    rewrite onmessage_st in Hst.
    destruct (run (map (SockMessage id) frames) (st (deliver (SockMessage id d) s)))
      as [s' o] eqn:Hrun.
    specialize (IH (st (deliver (SockMessage id d) s))).
    rewrite Hrun in IH. cbn [fst] in *. rewrite Hst in IH.
    cbn [omap list_omap].
    destruct (JSON_parse d) as [m |].
    + destruct IH as (Hm & Hl & Hc); [exact Hsk|].
      cbn [received messages lastMessage] in Hm, Hl.
      split; [rewrite Hm, <- app_assoc; reflexivity|].
      split; [|exact Hc].
      rewrite Hl. unfold last_of. rewrite last_cons.
      destruct (last (omap JSON_parse frames)); reflexivity.
    + destruct IH as (Hm & Hl & Hc); [exact Hsk|]. auto.
Qed.

(** X9. Frames delivered on a socket of the provider are recorded in
    the order of arrival: after any sequence of frames the message log is
    the old log followed by the values of those frames that parsed, in
    order, and frames that did not parse leave no trace in it.  The last
    message is the last value that parsed (or the old one if none did).
    Receiving never touches the connection flags, the refs, the counter,
    the sockets or the timers. *)
Theorem inbound_fifo (id : nat) (sk : WebSocket) (frames : list string) (s : State) :
  sockets s !! id = Some sk ->
  let s' := fst (run (map (SockMessage id) frames) s) in
  messages s' = (messages s ++ omap JSON_parse frames)%list /\
  lastMessage s' = last_of (omap JSON_parse frames) (lastMessage s) /\
  isConnected s' = isConnected s /\
  connectionStatus s' = connectionStatus s /\
  wsRef s' = wsRef s /\
  reconnectTimeoutRef s' = reconnectTimeoutRef s /\
  reconnectAttemptsRef s' = reconnectAttemptsRef s /\
  sockets s' = sockets s /\
  timers s' = timers s.
Proof.
  intros Hsk s'. destruct (receive_run id sk frames s Hsk) as (Hm & Hl & Hc).
  fold s' in Hm, Hl, Hc.
  split; [exact Hm|]. split; [exact Hl|].
  unfold connection_of in Hc. injection Hc as -> -> -> -> -> -> ->.
  repeat split.
Qed.

(** X10. [clearMessages] empties the message log and the last message
    and touches nothing else; it has no effect on the outside and doing
    it twice is the same as once.  Whatever the log held, after a clear
    it holds exactly the values of the frames that parse afterwards. *)
Theorem clearMessages_resets_log (id : nat) (sk : WebSocket)
    (frames : list string) (s : State) :
  sockets s !! id = Some sk ->
  clearMessages s =
    mkOutcome (Ok tt)
      (mkState (isConnected s) (connectionStatus s) None []
         (wsRef s) (reconnectTimeoutRef s) (reconnectAttemptsRef s)
         (sockets s) (timers s)) [] /\
  clearMessages (st (clearMessages s)) = clearMessages s /\
  messages (fst (run (CallClearMessages :: map (SockMessage id) frames) s))
  = omap JSON_parse frames.
Proof.
  intros Hsk. split; [reflexivity|]. split; [reflexivity|].
  cbn [run deliver].
  change (st (clearMessages s)) with (cleared s).
  destruct (receive_run id sk frames (cleared s) Hsk) as (Hm & _).
  destruct (run (map (SockMessage id) frames) (cleared s)) as [s' o].
  exact Hm.
Qed.

(** X11. The only toasts the dispatch shows are the success toast for
    type [connection_established] and the error toast for type [error],
    which carries [data.message] when that is truthy and the text
    [An error occurred] otherwise (no [data], no [message], an empty
    one).  Every other message, of a known or an unknown type or with no
    string type at all, shows none.  The dispatch throws only when the
    message is [null]. *)
Theorem dispatch_toasts (message : jsval) (s : State) :
  let r := handleWebSocketMessage message s in
  List.filter is_toast (out r) =
    match get_prop message "type" with
    | inr (JStr t) =>
        if String.eqb t "connection_established" then
          [ToastSuccess (JStr "Connected to HireSmart AI")]
        else if String.eqb t "error" then
          [ToastError (js_or (get_prop_opt (get_prop_opt message "data") "message")
                         (JStr "An error occurred"))]
        else []
    | _ => []
    end /\
  res r =
    match message with
    | JNull | JUndefined => Throw TypeError
    | _ => Ok tt
    end.
Proof.
  intros r. subst r. unfold handleWebSocketMessage, get_prop_opt.
  destruct message as [| | b | m e | str | items | fields];
    try (split; reflexivity).
  cbn [get_prop lift]. prim.
  destruct (assoc "type" fields) as [| | b | m e | t | items | fs];
    try (split; reflexivity).
  destruct (String.eqb t "connection_established") eqn:E1; [split; reflexivity|].
  destruct (String.eqb t "real_time_feedback") eqn:E2.
  { apply String.eqb_eq in E2. subst t.
    destruct (truthy (assoc "feedback" fields)); split; reflexivity. }
  destruct (String.eqb t "coding_execution_result") eqn:E3.
  { apply String.eqb_eq in E3. subst t.
    destruct (truthy (assoc "result" fields)); split; reflexivity. }
  destruct (String.eqb t "interview_question") eqn:E4.
  { apply String.eqb_eq in E4. subst t.
    destruct (truthy (assoc "question" fields)); split; reflexivity. }
  destruct (String.eqb t "error") eqn:E5; split; reflexivity.
Qed.

(** X12. A frame whose payload parses to [null] is recorded before the
    dispatch fails on it: [null] is appended to the message log, the last
    message becomes [null], and the [TypeError] of the dispatch is caught
    and written to the console as a parse error.  The handler returns
    normally. *)
Theorem null_frame_recorded (data : string) (s : State) :
  JSON_parse data = Some JNull ->
  onmessage data s =
    mkOutcome (Ok tt)
      (mkState (isConnected s) (connectionStatus s) None
         (messages s ++ [JNull])%list
         (wsRef s) (reconnectTimeoutRef s) (reconnectAttemptsRef s)
         (sockets s) (timers s))
      [ConsoleError [LVal (JStr "Error parsing WebSocket message:"); LExn TypeError]].
Proof.
  intros Hnull. unfold onmessage, try_catch, bind. rewrite Hnull. reflexivity.
Qed.

(** *** What every run keeps *)

Lemma send_st (message : any) (data : list Byte.byte) (s : State) :
  st (sendMessage message s) = s /\ st (sendBinaryData data s) = s.
Proof.
  unfold sendMessage, sendBinaryData, ws_send. prim.
  destruct (ws_is_open s); [|split; reflexivity].
  destruct (wsRef s) as [id |]; [|split; reflexivity].
  destruct message;
    destruct (readyState <$> sockets s !! id) as [[] |]; split; reflexivity.
Qed.

Lemma deliver_SockOpen_st (id : nat) (sk : WebSocket) (s : State) :
  sockets s !! id = Some sk ->
  st (deliver (SockOpen id) s) =
    mkState true connected (lastMessage s) (messages s)
      (wsRef s) (reconnectTimeoutRef s) 0%nat
      (<[id := mkWebSocket OPEN (url sk) (handlers sk)]> (sockets s))
      (timers s).
Proof.
  intros Hsk. rewrite (deliver_SockOpen id sk s Hsk). cbn zeta.
  destruct (wsRef s) as [id' |]; [|reflexivity].
  destruct (readyState <$> _ !! id') as [[] |]; reflexivity.
Qed.

Lemma deliver_TimerFire_st (h : nat) (cb : Closure) (s : State) :
  timers s !! h = Some (Some cb) ->
  st (deliver (TimerFire h) s) =
    st (connect_as cb
          (mkState (isConnected s) (connectionStatus s) (lastMessage s)
             (messages s) (wsRef s) (reconnectTimeoutRef s)
             (reconnectAttemptsRef s) (sockets s)
             (<[h := None]> (timers s)))).
Proof.
  intros Hh. unfold deliver. cbv [bind get]. rewrite Hh.
  cbv [set_timers modify].
  match goal with |- context [connect_as cb ?x] => destruct (connect_as cb x) end.
  reflexivity.
Qed.

Lemma Forall_handlers_insert (P : Closure -> Prop) (l : list WebSocket)
    (id : nat) (sk : WebSocket) (r : ReadyState) :
  l !! id = Some sk ->
  Forall (fun k => P (handlers k)) l ->
  Forall (fun k => P (handlers k)) (<[id := mkWebSocket r (url sk) (handlers sk)]> l).
Proof.
  intros Hsk Hall. apply Forall_insert; [exact Hall|].
  cbn. rewrite Forall_lookup in Hall. exact (Hall id sk Hsk).
Qed.

Lemma wf_connect_as (cl : Closure) (s : State) : wf s -> wf (st (connect_as cl s)).
Proof.
  intros (Hn & Hw & Ht & Hc & Hs & Htm). rewrite connect_as_eq.
  destruct (negb (authorised (cl_auth cl))) eqn:Ha;
    [repeat split; assumption|].
  apply negb_false_iff in Ha.
  destruct (ws_is_open s); [repeat split; assumption|].
  destruct (ws_url_ok _); cbn [st]; unfold connecting_state, failed_state;
    (split; [exact Hn|]); (split; [|split; [exact Ht|split; [exact Logic.I|]]]).
  - cbn [wsRef sockets]. intros id [= <-]. rewrite length_app. cbn. lia.
  - split; [|exact Htm]. cbn [sockets].
    apply Forall_app. split; [exact Hs|]. repeat constructor. exact Ha.
  - exact Hw.
  - split; assumption.
Qed.

Lemma wf_disconnected_state (s : State) : wf s -> wf (disconnected_state s).
Proof.
  intros (Hn & Hw & Ht & Hc & Hs & Htm). unfold disconnected_state.
  split; [cbn; unfold maxReconnectAttempts; lia|].
  split; [discriminate|]. split; [discriminate|]. split; [reflexivity|].
  split; cbn [sockets timers].
  - destruct (wsRef s) as [id |]; [|exact Hs]. unfold closing.
    destruct (sockets s !! id) as [sk |] eqn:Hsk; cbn; [|exact Hs].
    destruct (readyState sk); try exact Hs;
      apply (Forall_handlers_insert (fun c => authorised (cl_auth c) = true)); assumption.
  - destruct (reconnectTimeoutRef s); [|exact Htm].
    apply Forall_insert; [exact Htm | exact Logic.I].
Qed.

Lemma deliver_wf (e : Event) (s : State) : wf s -> wf (st (deliver e s)).
Proof.
  intros Hwf.
  destruct e as [a sid sty | | m | d | | | a | id | id data | id code reason | id | h].
  - apply wf_connect_as, Hwf.
  - cbn [deliver]. rewrite disconnect_eq. apply wf_disconnected_state, Hwf.
  - cbn [deliver]. rewrite (proj1 (send_st m [] s)). exact Hwf.
  - cbn [deliver]. rewrite (proj2 (send_st (Plain JNull) d s)). exact Hwf.
  - destruct Hwf as (Hn & Hw & Ht & Hc & Hs & Htm). repeat split; assumption.
  - cbn [deliver]. rewrite disconnect_eq. apply wf_disconnected_state, Hwf.
  - cbn [deliver]. destruct (negb (isAuthenticated a)); [|exact Hwf].
    rewrite disconnect_eq. apply wf_disconnected_state, Hwf.
  - destruct (sockets s !! id) as [sk |] eqn:Hsk.
    + rewrite (deliver_SockOpen_st id sk s Hsk).
      destruct Hwf as (Hn & Hw & Ht & Hc & Hs & Htm).
      split; [cbn; unfold maxReconnectAttempts; lia|].
      split; [cbn; intros i Hi; rewrite length_insert; exact (Hw i Hi)|].
      split; [exact Ht|]. split; [reflexivity|].
      split; [|exact Htm]. cbn [sockets].
      apply (Forall_handlers_insert (fun c => authorised (cl_auth c) = true)); assumption.
    + unfold deliver. cbv [bind get]. rewrite Hsk. exact Hwf.
  - destruct (sockets s !! id) as [sk |] eqn:Hsk.
    + rewrite (deliver_SockMessage_st id sk data s Hsk), onmessage_st.
      destruct (JSON_parse data); [|exact Hwf].
      destruct Hwf as (Hn & Hw & Ht & Hc & Hs & Htm). repeat split; assumption.
    + unfold deliver. cbv [bind get]. rewrite Hsk. exact Hwf.
  - destruct (sockets s !! id) as [sk |] eqn:Hsk.
    + rewrite (deliver_SockClose_eq id sk code reason s Hsk), onclose_eq.
      cbv [set_readyState set_sockets modify st]. rewrite Hsk.
      cbn [reconnectAttemptsRef timers].
      destruct Hwf as (Hn & Hw & Ht & Hc & Hs & Htm).
      assert (Hs' : Forall (fun k => authorised (cl_auth (handlers k)) = true)
                      (<[id := mkWebSocket CLOSED (url sk) (handlers sk)]> (sockets s)))
        by (apply (Forall_handlers_insert (fun c => authorised (cl_auth c) = true)); assumption).
      assert (Hsk' : authorised (cl_auth (handlers sk)) = true).
      { rewrite Forall_lookup in Hs. exact (Hs id sk Hsk). }
      destruct (negb (code =? 1000)); cbn [andb];
        [destruct (Nat.ltb_spec (reconnectAttemptsRef s) maxReconnectAttempts)|];
        cbn [st]; unfold scheduled, closed_state.
      * split; [cbn; lia|].
        split; [cbn; intros i Hi; rewrite length_insert; exact (Hw i Hi)|].
        split; [cbn; intros i [= <-]; rewrite length_app; cbn; lia|].
        split; [reflexivity|].
        split; [exact Hs'|]. cbn [timers].
        apply Forall_app. split; [exact Htm|]. repeat constructor. exact Hsk'.
      * split; [exact Hn|].
        split; [cbn; intros i Hi; rewrite length_insert; exact (Hw i Hi)|].
        split; [exact Ht|]. split; [reflexivity|]. split; assumption.
      * split; [exact Hn|].
        split; [cbn; intros i Hi; rewrite length_insert; exact (Hw i Hi)|].
        split; [exact Ht|]. split; [reflexivity|]. split; assumption.
    + unfold deliver. cbv [bind get]. rewrite Hsk. exact Hwf.
  - destruct (sockets s !! id) as [sk |] eqn:Hsk.
    + unfold deliver, onerror. prim. rewrite Hsk. cbn [st].
      destruct Hwf as (Hn & Hw & Ht & Hc & Hs & Htm).
      repeat split; try assumption.
    + unfold deliver. cbv [bind get]. rewrite Hsk. exact Hwf.
  - destruct (timers s !! h) as [[cb |] |] eqn:Hh.
    + rewrite (deliver_TimerFire_st h cb s Hh). apply wf_connect_as.
      destruct Hwf as (Hn & Hw & Ht & Hc & Hs & Htm).
      split; [exact Hn|]. split; [exact Hw|].
      split; [cbn; intros i Hi; rewrite length_insert; exact (Ht i Hi)|].
      split; [exact Hc|]. split; [exact Hs|]. cbn [timers].
      apply Forall_insert; [exact Htm | exact Logic.I].
    + unfold deliver. cbv [bind get]. rewrite Hh. exact Hwf.
    + unfold deliver. cbv [bind get]. rewrite Hh. exact Hwf.
Qed.

Lemma wf_initial : wf initial.
Proof.
  unfold wf, closures_authorised, initial, maxReconnectAttempts; cbn.
  repeat split; try discriminate; try lia; try constructor.
Qed.

Lemma run_wf (evs : list Event) (s : State) : wf s -> wf (fst (run evs s)).
Proof.
  revert s. induction evs as [| e evs IH]; intros s Hwf; [exact Hwf|].
  cbn [run]. specialize (IH _ (deliver_wf e s Hwf)).
  destruct (run evs (st (deliver e s))). exact IH.
Qed.

(** X13. In every state a run from the initial state can reach, the
    attempt counter is at most [maxReconnectAttempts], whatever the events
    (consumer calls, socket events, timer expiries) and their order. *)
Theorem counter_never_exceeds_max (evs : list Event) :
  (reconnectAttemptsRef (fst (run evs initial)) <= maxReconnectAttempts)%nat.
Proof. exact (proj1 (run_wf evs initial wf_initial)). Qed.

(** X14. In every state a run from the initial state can reach,
    [isConnected] agrees with the status: it is true when the status is
    [connected] and false when the status is [disconnected]. *)
Theorem status_agrees_with_flag (evs : list Event) :
  match connectionStatus (fst (run evs initial)) with
  | connected => isConnected (fst (run evs initial)) = true
  | disconnected => isConnected (fst (run evs initial)) = false
  | connecting | error => True
  end.
Proof.
  destruct (run_wf evs initial wf_initial) as (_ & _ & _ & Hflags & _).
  exact Hflags.
Qed.

Lemma authorised_token (a : Auth) :
  authorised a = true -> exists t, token a = Some t /\ t <> "".
Proof.
  unfold authorised, no_token, token_val. intros H.
  apply andb_true_iff in H as [_ H]. rewrite negb_involutive in H.
  destruct (token a) as [t |]; [|discriminate H].
  exists t. split; [reflexivity|]. cbn in H.
  intros ->. discriminate H.
Qed.

Lemma deliver_sends_auth (e : Event) (s : State) (id : nat) (f : Frame) :
  wf s ->
  is_consumer_send e = false ->
  In (WsSend id f) (out (deliver e s)) ->
  exists t, t <> "" /\ f = auth_frame_of t.
Proof.
  intros Hwf Hsend Hin.
  destruct (match e with SockOpen i => Some i | _ => None end) as [i |] eqn:He.
  - destruct e; try discriminate He. injection He as ->.
    destruct (sockets s !! i) as [k |] eqn:Hk.
    + destruct Hwf as (_ & _ & _ & _ & Hs & _).
      rewrite Forall_lookup in Hs. specialize (Hs i k Hk).
      destruct (authorised_token _ Hs) as (t & Ht & Hne).
      exists t. split; [exact Hne|].
      rewrite (deliver_SockOpen i k s Hk) in Hin. cbn zeta in Hin.
      assert (Hf : f = auth_frame (cl_auth (handlers k))).
      { destruct (wsRef s) as [j |]; cbn in Hin.
        - destruct (readyState <$> _ !! j) as [[] |]; cbn in Hin;
            intuition (try discriminate); congruence.
        - intuition discriminate. }
      rewrite Hf. unfold auth_frame, auth_frame_of, token_val. rewrite Ht.
      reflexivity.
    + unfold deliver in Hin. cbv [bind get] in Hin. rewrite Hk in Hin.
      destruct Hin.
  - exfalso.
    assert (Hq : keeps (fun _ => True) (fun x => negb (is_WsSend x)) (deliver e)).
    { apply quiet_deliver; [exact Hsend|]. intros j ->. discriminate He. }
    destruct (Hq s Logic.I) as [_ Hall].
    rewrite forallb_forall in Hall. specialize (Hall _ Hin). discriminate Hall.
Qed.

(** X15. In a run from the initial state in which the consumer sends
    nothing itself, every frame the provider puts on the wire is an
    authentication frame [{ type: 'auth', token }] whose token is a
    non-empty string: the provider never authenticates with a missing or
    empty token. *)
Theorem auth_frames_carry_token (evs : list Event) (id : nat) (f : Frame) :
  forallb (fun e => negb (is_consumer_send e)) evs = true ->
  In (WsSend id f) (snd (run evs initial)) ->
  exists t, t <> "" /\ f = auth_frame_of t.
Proof.
  intros Hevs. generalize wf_initial. generalize initial as s.
  induction evs as [| e evs IH]; intros s Hwf Hin; [destruct Hin|].
  cbn [forallb] in Hevs. apply andb_true_iff in Hevs as [He Hevs].
  apply negb_true_iff in He.
  cbn [run] in Hin.
  destruct (run evs (st (deliver e s))) as [s' o] eqn:Hrun.
  cbn [snd] in Hin. apply in_app_or in Hin as [Hin | Hin].
  - exact (deliver_sends_auth e s id f Hwf He Hin).
  - apply (IH Hevs (st (deliver e s)) (deliver_wf e s Hwf)).
    rewrite Hrun. exact Hin.
Qed.

(** *** Delays *)

Lemma backoff_range (n : nat) : 2000 <= backoff (S n) <= 30000.
Proof.
  unfold backoff. rewrite Nat2Z.inj_succ, Z.pow_succ_r by lia.
  assert (0 < 2 ^ Z.of_nat n) by (apply Z.pow_pos_nonneg; lia).
  lia.
Qed.

Lemma deliver_delays (e : Event) (s : State) :
  forallb delay_in_range (out (deliver e s)) = true.
Proof.
  destruct (match e with SockClose i c r => Some (i, c, r) | _ => None end)
    as [[[i c] r] |] eqn:He.
  - destruct e; try discriminate He. injection He as -> -> ->.
    destruct (sockets s !! i) as [sk |] eqn:Hsk.
    + rewrite (deliver_SockClose_eq i sk c r s Hsk), onclose_eq.
      destruct (_ && _); [|reflexivity].
      cbn [out forallb delay_in_range close_line attempt_line].
      destruct (backoff_range (reconnectAttemptsRef (st (set_readyState i CLOSED s))))
        as [Hlo Hhi].
      apply Z.leb_le in Hlo, Hhi. rewrite Hlo, Hhi. reflexivity.
    + unfold deliver. cbv [bind get]. rewrite Hsk. reflexivity.
  - assert (Hk : keeps (fun _ => True) (fun x => negb (is_SetTimeout x)) (deliver e)).
    { destruct e; try discriminate He; keeps_walk; auto. }
    destruct (Hk s Logic.I) as [_ Hall].
    rewrite forallb_forall in Hall |- *. intros x Hx. specialize (Hall x Hx).
    destruct x; try reflexivity. discriminate Hall.
Qed.

(** X16. Whatever the state and the events, every reconnect timer the
    provider sets has a delay between 2000 and 30000 milliseconds. *)
Theorem reconnect_delays_in_range (evs : list Event) (s : State) :
  forallb delay_in_range (snd (run evs s)) = true.
Proof.
  revert s. induction evs as [| e evs IH]; intros s; [reflexivity|].
  cbn [run]. specialize (IH (st (deliver e s))).
  destruct (run evs (st (deliver e s))) as [s' o]. cbn [snd] in *.
  rewrite forallb_app, deliver_delays, IH. reflexivity.
Qed.

(** X17. The delay never shrinks from one attempt to the next: it
    doubles from 2000 ms up to 16000 ms for the fourth attempt and is
    30000 ms from the fifth attempt on. *)
Theorem backoff_monotone (n m : nat) :
  (n <= m)%nat ->
  backoff n <= backoff m /\
  ((n <= 4)%nat -> backoff n = 1000 * 2 ^ Z.of_nat n) /\
  ((5 <= n)%nat -> backoff n = 30000).
Proof.
  intros Hnm. unfold backoff. split; [|split].
  - apply Z.min_le_compat_r, Z.mul_le_mono_nonneg_l; [lia|].
    apply Z.pow_le_mono_r; lia.
  - intros Hn. apply Z.min_l.
    assert (2 ^ Z.of_nat n <= 2 ^ 4) by (apply Z.pow_le_mono_r; lia). lia.
  - intros Hn. apply Z.min_r.
    assert (2 ^ 5 <= 2 ^ Z.of_nat n) by (apply Z.pow_le_mono_r; lia). lia.
Qed.

(** *** Cycles *)

Lemma set_readyState_st (id : nat) (sk : WebSocket) (r : ReadyState) (s : State) :
  sockets s !! id = Some sk ->
  st (set_readyState id r s) =
    mkState (isConnected s) (connectionStatus s) (lastMessage s) (messages s)
      (wsRef s) (reconnectTimeoutRef s) (reconnectAttemptsRef s)
      (<[id := mkWebSocket r (url sk) (handlers sk)]> (sockets s)) (timers s).
Proof.
  intros Hsk. cbv [set_readyState set_sockets modify st]. rewrite Hsk. reflexivity.
Qed.


(** X19. The reconnect cycle.  When the socket in [wsRef] closes with a
    code other than 1000 while the counter is below 5, and the timer set
    by that closure then expires, [connect] runs again for the same
    session with the credentials the closed socket was made with: a new
    socket for the same URL becomes the one in [wsRef], in state
    [CONNECTING] and with the same handlers, the status is [connecting],
    the counter is one more than before, and the timer is spent. *)
Theorem reconnect_cycle (id : nat) (sk : WebSocket) (code : Z) (reason : string)
    (s : State) :
  wsRef s = Some id ->
  sockets s !! id = Some sk ->
  code <> 1000 ->
  (reconnectAttemptsRef s < maxReconnectAttempts)%nat ->
  authorised (cl_auth (handlers sk)) = true ->
  ws_url_ok (wsUrl (cl_sessionId (handlers sk)) (cl_sessionType (handlers sk))) = true ->
  let s' := fst (run [SockClose id code reason; TimerFire (length (timers s))] s) in
  connectionStatus s' = connecting /\
  wsRef s' = Some (length (sockets s)) /\
  sockets s' !! length (sockets s) =
    Some (mkWebSocket CONNECTING
            (wsUrl (cl_sessionId (handlers sk)) (cl_sessionType (handlers sk)))
            (handlers sk)) /\
  reconnectAttemptsRef s' = S (reconnectAttemptsRef s) /\
  pending s' (length (timers s)) = false.
Proof.
  intros Hw Hsk Hcode Hlt Ha Hurl s'. subst s'. cbn [run fst].
  set (r1 := deliver (SockClose id code reason) s).
  assert (Hr1 : st r1 =
    scheduled (handlers sk) (closed_state (st (set_readyState id CLOSED s)))).
  { subst r1. rewrite (deliver_SockClose_eq id sk code reason s Hsk), onclose_eq.
    rewrite (set_readyState_st id sk CLOSED s Hsk). cbn [reconnectAttemptsRef].
    assert (Hne : negb (code =? 1000) = true).
    { apply negb_true_iff, Z.eqb_neq, Hcode. }
    rewrite Hne. apply Nat.ltb_lt in Hlt. rewrite Hlt. reflexivity. }
  rewrite Hr1. clear r1 Hr1.
  rewrite (set_readyState_st id sk CLOSED s Hsk).
  set (s1 := scheduled _ _).
  assert (Ht : timers s1 !! length (timers s) = Some (Some (handlers sk))).
  { subst s1. cbn [scheduled closed_state timers].
    apply list_lookup_middle. reflexivity. }
  pose proof (deliver_TimerFire_st _ _ _ Ht) as Hfire.
  rewrite Hfire. clear Hfire.
  rewrite connect_as_eq. rewrite Ha. cbn [negb].
  set (s2 := mkState _ _ _ _ _ _ _ _ _).
  assert (Hclosed : ws_is_open s2 = false).
  { unfold ws_is_open. subst s2 s1. cbn [wsRef sockets scheduled closed_state].
    rewrite Hw, list_lookup_insert_eq by (eapply lookup_lt_Some, Hsk).
    reflexivity. }
  rewrite Hclosed, Hurl. cbn [st].
  assert (Hlen : length (sockets s2) = length (sockets s)).
  { subst s2 s1. cbn [sockets scheduled closed_state]. apply length_insert. }
  unfold connecting_state. cbn [connectionStatus wsRef sockets reconnectAttemptsRef].
  rewrite Hlen.
  split; [reflexivity|]. split; [reflexivity|].
  split; [rewrite <- Hlen; apply list_lookup_middle; reflexivity|].
  split; [reflexivity|].
  unfold pending. cbn [timers]. subst s2 s1. cbn [timers scheduled closed_state].
  rewrite list_lookup_insert_eq; [reflexivity|].
  rewrite length_app. cbn. lia.
Qed.

End Provider.

(** ** Worked examples on the concrete platform *)

Local Abbreviation demo_deliver :=
  (deliver Demo.parse Demo.stringify Demo.url_ok Demo.base).
Local Abbreviation demo_run :=
  (run Demo.parse Demo.stringify Demo.url_ok Demo.base).
Local Abbreviation demo_connect := (connect Demo.url_ok Demo.base).

(** The example states are states of real runs. *)

Example retrying_0_reached :
  fst (demo_run [CallConnect Demo.user "abc123" interview] initial)
  = Demo.retrying 0.
Proof. vm_compute. reflexivity. Qed.

Example open_state_reached :
  fst (demo_run [CallConnect Demo.user "abc123" interview; SockOpen 0] initial)
  = Demo.open_state.
Proof. vm_compute. reflexivity. Qed.

Example waiting_reached :
  fst (demo_run [CallConnect Demo.user "abc123" interview; SockClose 0 1006 ""]
         initial)
  = Demo.waiting.
Proof. vm_compute. reflexivity. Qed.

Example retrying_2_reached :
  fst (demo_run [SockClose 0 1006 ""; TimerFire 0; SockClose 1 1006 ""; TimerFire 1]
         (Demo.retrying 0))
  = Demo.retrying 2.
Proof. vm_compute. reflexivity. Qed.

Example retrying_5_reached :
  fst (demo_run (firstn 10 Demo.failures) (Demo.retrying 0)) = Demo.retrying 5.
Proof. vm_compute. reflexivity. Qed.

(** Scenario of the specification: an abnormal close of a connected
    session leaves it disconnected with the counter at 1 and a timer of
    2000 ms. *)
Example abnormal_close_scenario :
  let r := demo_deliver (SockClose 0 1006 "") Demo.open_state in
  connectionStatus (st r) = disconnected /\
  reconnectAttemptsRef (st r) = 1%nat /\
  List.filter is_SetTimeout (out r) = [SetTimeout 0 2000].
Proof. vm_compute. repeat split. Qed.

(** *** Witnesses *)

Lemma reconnect_counter_capped_witness :
  failures_only Demo.parse Demo.stringify Demo.url_ok Demo.base
    Demo.failures (Demo.retrying 0) = true /\
  reconnectAttemptsRef (Demo.retrying 0) = 0%nat /\
  closures Demo.failures = 6%nat /\
  reconnectAttemptsRef (fst (demo_run Demo.failures (Demo.retrying 0))) = 5%nat /\
  timeouts_set (snd (demo_run Demo.failures (Demo.retrying 0))) = 5%nat.
Proof.
  assert (Hev : failures_only Demo.parse Demo.stringify Demo.url_ok Demo.base
                  Demo.failures (Demo.retrying 0) = true)
    by (vm_compute; reflexivity).
  destruct (reconnect_counter_capped Demo.parse Demo.stringify Demo.url_ok
              Demo.base Demo.failures (Demo.retrying 0) Hev eq_refl)
    as (Hn & Ht & _).
  split; [exact Hev|]. split; [reflexivity|]. split; [reflexivity|].
  split; [exact Hn | exact Ht].
Defined.

Lemma backoff_delay_witness :
  (1 <= 5 <= 5)%nat /\
  S (reconnectAttemptsRef (Demo.retrying 4)) = 5%nat /\
  List.filter is_SetTimeout (out (attemptReconnect Demo.target (Demo.retrying 4)))
  = [SetTimeout 4 30000].
Proof.
  assert (Hk : (1 <= 5 <= 5)%nat) by lia.
  destruct (backoff_delay 5 Demo.target (Demo.retrying 4) Hk eq_refl)
    as (_ & Hset & _).
  split; [exact Hk|]. split; [reflexivity|]. exact Hset.
Defined.

Lemma open_resets_and_authenticates_witness :
  sockets (Demo.retrying 2) !! 2%nat = Some (Demo.sock CONNECTING) /\
  wsRef (Demo.retrying 2) = Some 2%nat /\
  reconnectAttemptsRef (Demo.retrying 2) = 2%nat /\
  reconnectAttemptsRef (st (demo_deliver (SockOpen 2) (Demo.retrying 2))) = 0%nat /\
  connectionStatus (st (demo_deliver (SockOpen 2) (Demo.retrying 2))) = connected /\
  List.filter is_WsSend (out (demo_deliver (SockOpen 2) (Demo.retrying 2)))
  = [WsSend 2 (TextFrame "auth:T")].
Proof.
  destruct (open_resets_and_authenticates Demo.parse Demo.stringify Demo.url_ok
              Demo.base 2 (Demo.sock CONNECTING) (Demo.retrying 2)
              eq_refl eq_refl)
    as (_ & _ & Hstatus & Hcount & Hsend & _).
  split; [reflexivity|]. split; [reflexivity|]. split; [reflexivity|].
  split; [exact Hcount|]. split; [exact Hstatus | exact Hsend].
Defined.

Lemma disconnect_spec_witness :
  reconnectTimeoutRef Demo.waiting = Some 0%nat /\
  pending Demo.waiting 0 = true /\
  out (disconnect Demo.waiting)
  = [ClearTimeout 0; WsClose 0 1000 "User disconnected"] /\
  demo_deliver (TimerFire 0)
    (fst (demo_run [SockClose 0 1000 "User disconnected"]
            (st (disconnect Demo.waiting))))
  = mkOutcome (Ok tt)
      (fst (demo_run [SockClose 0 1000 "User disconnected"]
              (st (disconnect Demo.waiting)))) [].
Proof.
  destruct (disconnect_spec Demo.parse Demo.stringify Demo.url_ok Demo.base
              Demo.waiting)
    as (_ & _ & _ & _ & _ & _ & Hout & _ & Hnever & _).
  split; [reflexivity|]. split; [reflexivity|]. split; [exact Hout|].
  exact (proj2 (Hnever 0%nat eq_refl eq_refl
                  [SockClose 0 1000 "User disconnected"])).
Defined.

Lemma unparseable_frame_dropped_witness :
  Demo.parse "{bad" = None /\
  st (demo_deliver (SockMessage 0 "{bad") Demo.open_state) = Demo.open_state.
Proof.
  destruct (unparseable_frame_dropped Demo.parse Demo.stringify Demo.url_ok
              Demo.base 0 "{bad" Demo.open_state eq_refl)
    as (_ & Hst & _).
  split; [reflexivity | exact Hst].
Defined.

Lemma send_when_not_open_witness :
  ws_is_open Demo.waiting = false /\
  sendMessage Demo.stringify (Plain (JObj [("type", JStr "answer")])) Demo.waiting
  = mkOutcome (Ok tt) Demo.waiting
      [ConsoleError [LVal (JStr "WebSocket is not connected")];
       ToastError (JStr "Connection lost. Please reconnect.")].
Proof.
  split; [reflexivity|].
  exact (proj1 (send_when_not_open Demo.stringify
                  (Plain (JObj [("type", JStr "answer")])) [] Demo.waiting eq_refl)).
Defined.

Lemma connect_unauthenticated_witness :
  authorised Demo.guest = false /\
  demo_connect Demo.guest "abc123" interview initial
  = mkOutcome (Ok tt) initial
      [ConsoleError [LVal (JStr "Cannot connect WebSocket: User not authenticated")]].
Proof.
  split; [reflexivity|].
  exact (connect_unauthenticated Demo.url_ok Demo.base Demo.guest "abc123"
           interview initial eq_refl).
Defined.

Lemma connect_when_open_noop_witness :
  ws_is_open Demo.open_state = true /\
  st (demo_connect Demo.user "abc123" interview Demo.open_state) = Demo.open_state.
Proof.
  split; [reflexivity|].
  exact (proj1 (proj2 (connect_when_open_noop Demo.url_ok Demo.base Demo.user
                         "abc123" interview Demo.open_state eq_refl))).
Defined.

Lemma parsed_message_frame_witness :
  Demo.parse "oops"
  = Some (JObj [("type", JStr "error"); ("data", JObj [("message", JStr "boom")])]) /\
  forallb is_notice (out (onmessage Demo.parse "oops" Demo.open_state)) = true /\
  reconnectAttemptsRef (st (onmessage Demo.parse "oops" Demo.open_state)) = 0%nat.
Proof.
  destruct (parsed_message_frame Demo.parse "oops" _ Demo.open_state eq_refl)
    as (_ & Hst & Hout & _).
  split; [reflexivity|]. split; [exact Hout|].
  rewrite Hst. reflexivity.
Defined.

(** *** Witnesses of the further properties *)

Lemma connect_creates_socket_witness :
  authorised Demo.user = true /\
  ws_is_open initial = false /\
  Demo.url_ok (wsUrl Demo.base "abc123" interview) = true /\
  demo_connect Demo.user "abc123" interview initial
  = mkOutcome (Ok tt) (Demo.retrying 0)
      [WsNew 0 "ws://localhost:8000/ws/interview/abc123"].
Proof.
  split; [reflexivity|]. split; [reflexivity|]. split; [reflexivity|].
  exact (connect_creates_socket Demo.url_ok Demo.base Demo.user "abc123"
           interview initial eq_refl eq_refl eq_refl).
Defined.

Lemma connect_constructor_throws_witness :
  authorised Demo.user = true /\
  ws_is_open Demo.waiting = false /\
  connectionStatus
    (st (connect (fun _ => false) Demo.base Demo.user "abc123" coding Demo.waiting))
  = error /\
  sockets (st (connect (fun _ => false) Demo.base Demo.user "abc123" coding
                 Demo.waiting))
  = sockets Demo.waiting.
Proof.
  split; [reflexivity|]. split; [reflexivity|].
  rewrite (connect_constructor_throws (fun _ => false) Demo.base Demo.user
             "abc123" coding Demo.waiting eq_refl eq_refl eq_refl).
  split; reflexivity.
Defined.

Lemma wsUrl_injective_witness :
  wsUrl Demo.base "abc123" coding = wsUrl Demo.base "abc123" coding /\
  "abc123" = "abc123" /\ coding = coding.
Proof.
  split; [reflexivity|].
  exact (wsUrl_injective Demo.base "abc123" "abc123" coding coding eq_refl).
Defined.

Lemma send_when_open_witness :
  ws_is_open Demo.open_state = true /\
  (exists id,
     wsRef Demo.open_state = Some id /\
     sendMessage Demo.stringify (Plain (JObj [("type", JStr "answer")]))
       Demo.open_state
     = mkOutcome (Ok tt) Demo.open_state [WsSend id (TextFrame "json")] /\
     sendBinaryData [Byte.x01; Byte.x02] Demo.open_state
     = mkOutcome (Ok tt) Demo.open_state
         [WsSend id (BinaryFrame [Byte.x01; Byte.x02])]) /\
  (exists id,
     wsRef Demo.open_state = Some id /\
     sendMessage Demo.stringify (Throwing TypeError) Demo.open_state
     = mkOutcome (Throw TypeError) Demo.open_state [] /\
     sendBinaryData [] Demo.open_state
     = mkOutcome (Ok tt) Demo.open_state [WsSend id (BinaryFrame [])]).
Proof.
  split; [reflexivity|]. split.
  - exact (send_when_open Demo.stringify (Plain (JObj [("type", JStr "answer")]))
             [Byte.x01; Byte.x02] Demo.open_state eq_refl).
  - exact (send_when_open Demo.stringify (Throwing TypeError)
             [] Demo.open_state eq_refl).
Defined.

Lemma error_does_not_retry_witness :
  sockets Demo.open_state !! 0%nat = Some (Demo.sock OPEN) /\
  ws_is_open (st (demo_deliver (SockError 0) Demo.open_state)) = true /\
  connectionStatus (st (demo_deliver (SockError 0) Demo.open_state)) = error.
Proof.
  destruct (error_does_not_retry Demo.parse Demo.stringify Demo.url_ok Demo.base
              0 (Demo.sock OPEN) Demo.open_state eq_refl) as [Heq Hopen].
  split; [reflexivity|]. split; [exact Hopen|].
  rewrite Heq. reflexivity.
Defined.

Lemma abnormal_close_after_disconnect_witness :
  wsRef Demo.open_state = Some 0%nat /\
  sockets Demo.open_state !! 0%nat = Some (Demo.sock OPEN) /\
  1006 <> 1000 /\
  reconnectAttemptsRef
    (st (demo_deliver (SockClose 0 1006 "") (st (disconnect Demo.open_state))))
  = 1%nat /\
  List.filter is_SetTimeout
    (out (demo_deliver (SockClose 0 1006 "") (st (disconnect Demo.open_state))))
  = [SetTimeout 0 2000].
Proof.
  assert (Hcode : 1006 <> 1000) by discriminate.
  destruct (abnormal_close_after_disconnect Demo.parse Demo.stringify Demo.url_ok
              Demo.base 0 (Demo.sock OPEN) 1006 "" Demo.open_state
              eq_refl eq_refl Hcode) as (Hn & Ht & _).
  split; [reflexivity|]. split; [reflexivity|]. split; [exact Hcode|].
  split; [exact Hn | exact Ht].
Defined.

Lemma inbound_fifo_witness :
  sockets Demo.open_state !! 0%nat = Some (Demo.sock OPEN) /\
  messages (fst (demo_run (map (SockMessage 0) ["hello"; "{bad"; "42"])
                   Demo.open_state))
  = [JObj [("type", JStr "connection_established"); ("timestamp", JNum 17 11)];
     JNum 42 0] /\
  lastMessage (fst (demo_run (map (SockMessage 0) ["hello"; "{bad"; "42"])
                      Demo.open_state))
  = Some (JNum 42 0).
Proof.
  destruct (inbound_fifo Demo.parse Demo.stringify Demo.url_ok Demo.base
              0 (Demo.sock OPEN) ["hello"; "{bad"; "42"] Demo.open_state eq_refl)
    as (Hm & Hl & _).
  split; [reflexivity|]. split; [exact Hm | exact Hl].
Defined.

Lemma clearMessages_resets_log_witness :
  sockets Demo.open_state !! 0%nat = Some (Demo.sock OPEN) /\
  messages (fst (demo_run (CallClearMessages :: map (SockMessage 0) ["42"; "oops"])
                   (fst (demo_run [SockMessage 0 "hello"] Demo.open_state))))
  = [JNum 42 0;
     JObj [("type", JStr "error"); ("data", JObj [("message", JStr "boom")])]].
Proof.
  split; [reflexivity|].
  exact (proj2 (proj2 (clearMessages_resets_log Demo.parse Demo.stringify
                         Demo.url_ok Demo.base 0 (Demo.sock OPEN) ["42"; "oops"]
                         (fst (demo_run [SockMessage 0 "hello"] Demo.open_state))
                         eq_refl))).
Defined.

Lemma null_frame_recorded_witness :
  Demo.parse "null" = Some JNull /\
  messages (st (onmessage Demo.parse "null" Demo.open_state)) = [JNull] /\
  out (onmessage Demo.parse "null" Demo.open_state)
  = [ConsoleError [LVal (JStr "Error parsing WebSocket message:"); LExn TypeError]].
Proof.
  split; [reflexivity|].
  rewrite (null_frame_recorded Demo.parse "null" Demo.open_state eq_refl).
  split; reflexivity.
Defined.

Lemma auth_frames_carry_token_witness :
  forallb (fun e => negb (is_consumer_send e))
    [CallConnect Demo.user "abc123" interview; SockOpen 0] = true /\
  In (WsSend 0 (TextFrame "auth:T"))
    (snd (demo_run [CallConnect Demo.user "abc123" interview; SockOpen 0] initial)) /\
  exists t, t <> "" /\ TextFrame "auth:T" = auth_frame_of Demo.stringify t.
Proof.
  assert (Hin : In (WsSend 0 (TextFrame "auth:T"))
                  (snd (demo_run [CallConnect Demo.user "abc123" interview; SockOpen 0]
                          initial))).
  { vm_compute. right. right. left. reflexivity. }
  split; [reflexivity|]. split; [exact Hin|].
  exact (auth_frames_carry_token Demo.parse Demo.stringify Demo.url_ok Demo.base
           [CallConnect Demo.user "abc123" interview; SockOpen 0]
           0 (TextFrame "auth:T") eq_refl Hin).
Defined.

Lemma backoff_monotone_witness :
  (3 <= 7)%nat /\ backoff 3 <= backoff 7 /\ backoff 3 = 8000 /\ backoff 7 = 30000.
Proof.
  assert (Hle : (3 <= 7)%nat) by lia.
  destruct (backoff_monotone 3 7 Hle) as (Hmono & _).
  split; [exact Hle|]. split; [exact Hmono|]. split; reflexivity.
Defined.


Lemma reconnect_cycle_witness :
  wsRef Demo.open_state = Some 0%nat /\
  sockets Demo.open_state !! 0%nat = Some (Demo.sock OPEN) /\
  1006 <> 1000 /\
  (reconnectAttemptsRef Demo.open_state < maxReconnectAttempts)%nat /\
  connectionStatus
    (fst (demo_run [SockClose 0 1006 ""; TimerFire 0] Demo.open_state))
  = connecting /\
  wsRef (fst (demo_run [SockClose 0 1006 ""; TimerFire 0] Demo.open_state))
  = Some 1%nat /\
  reconnectAttemptsRef
    (fst (demo_run [SockClose 0 1006 ""; TimerFire 0] Demo.open_state))
  = 1%nat.
Proof.
  assert (Hcode : 1006 <> 1000) by discriminate.
  assert (Hlt : (reconnectAttemptsRef Demo.open_state < maxReconnectAttempts)%nat)
    by (cbn; unfold maxReconnectAttempts; lia).
  destruct (reconnect_cycle Demo.parse Demo.stringify Demo.url_ok Demo.base
              0 (Demo.sock OPEN) 1006 "" Demo.open_state
              eq_refl eq_refl Hcode Hlt eq_refl eq_refl)
    as (Hstatus & Href & _ & Hn & _).
  split; [reflexivity|]. split; [reflexivity|]. split; [exact Hcode|].
  split; [exact Hlt|]. split; [exact Hstatus|]. split; [exact Href | exact Hn].
Defined.

(** *** Where the code departs from the specification *)

(** C8 (as stated) fails: an unauthenticated [connect] shows no toast. *)
Lemma connect_unauthenticated_shows_no_toast :
  ~ exists e,
      In e (out (demo_connect Demo.guest "abc123" interview initial))
      /\ is_toast e = true.
Proof.
  intros (e & Hin & Htoast). cbn in Hin.
  destruct Hin as [<- | []]. discriminate Htoast.
Qed.

(** C3. After five abnormal closures, each followed by its timer's
    expiry, the counter is at 5.  The sixth closure only writes its
    console line: no toast is shown then or anywhere in the run, although
    [attemptReconnect], which [onclose] no longer calls at that point,
    would have shown [Unable to reconnect. Please refresh the page.] *)
Theorem exhausted_closure_shows_no_toast :
  reconnectAttemptsRef (Demo.retrying 5) = maxReconnectAttempts /\
  demo_deliver (SockClose 5 1006 "") (Demo.retrying 5)
  = mkOutcome (Ok tt)
      (closed_state (st (set_readyState 5 CLOSED (Demo.retrying 5))))
      [close_line 1006 ""] /\
  List.filter is_toast
    (snd (demo_run (CallConnect Demo.user "abc123" interview :: Demo.failures)
            initial)) = [] /\
  timeouts_set
    (snd (demo_run (CallConnect Demo.user "abc123" interview :: Demo.failures)
            initial)) = 5%nat /\
  out (attemptReconnect Demo.target (Demo.retrying 5))
  = [ToastError (JStr "Unable to reconnect. Please refresh the page.")].
Proof. vm_compute. repeat split. Qed.

(** Two [connect] calls before the first socket opens: the first socket
    is left connecting, with its handlers, and [wsRef] holds the second. *)
Definition twice_connected : State :=
  fst (demo_run [CallConnect Demo.user "abc123" interview;
                 CallConnect Demo.user "abc123" interview] initial).

(** Two sockets lost in a row, the second made by a [connect] call while
    the first reconnect timer was pending: two timers are pending, and
    [reconnectTimeoutRef] holds the second only. *)
Definition twice_lost : State :=
  fst (demo_run [CallConnect Demo.user "abc123" interview;
                 SockClose 0 1006 "";
                 CallConnect Demo.user "abc123" interview;
                 SockClose 1 1006 ""] initial).

(** C4. After two [connect] calls the first socket is still connecting
    and [wsRef] holds the second.  When the first socket opens, its handler
    sets [isConnected], status [connected] and the counter to 0, then calls
    [send] on the socket in [wsRef], which is not open yet: the call throws
    [InvalidStateError] out of the handler and no authentication frame is
    sent, on the connection that opened or anywhere.  When the second
    socket opens before the first, both handlers send on the second socket:
    it carries two authentication frames and the first socket none. *)
Theorem stale_open_sends_no_auth_frame :
  (readyState <$> sockets twice_connected !! 0%nat) = Some CONNECTING /\
  (readyState <$> sockets twice_connected !! 1%nat) = Some CONNECTING /\
  wsRef twice_connected = Some 1%nat /\
  res (demo_deliver (SockOpen 0) twice_connected) = Throw InvalidStateError /\
  (readyState <$> sockets (st (demo_deliver (SockOpen 0) twice_connected)) !! 0%nat)
  = Some OPEN /\
  isConnected (st (demo_deliver (SockOpen 0) twice_connected)) = true /\
  connectionStatus (st (demo_deliver (SockOpen 0) twice_connected)) = connected /\
  reconnectAttemptsRef (st (demo_deliver (SockOpen 0) twice_connected)) = 0%nat /\
  List.filter is_WsSend (out (demo_deliver (SockOpen 0) twice_connected)) = [] /\
  List.filter is_WsSend (snd (demo_run [SockOpen 1; SockOpen 0] twice_connected))
  = [WsSend 1 (TextFrame "auth:T"); WsSend 1 (TextFrame "auth:T")].
Proof. vm_compute. repeat split. Qed.

(** C5. After two sockets were lost in a row, two reconnect timers are
    pending and [reconnectTimeoutRef] holds the second, the handle of the
    first having been overwritten by [attemptReconnect].  [disconnect]
    clears the second timer only and leaves status [disconnected] with the
    counter at 0; the first timer is still pending after it, and its expiry
    runs [connect]: a new socket is made and the status is [connecting],
    after the explicit disconnect. *)
Theorem overwritten_timer_survives_disconnect :
  pending twice_lost 0 = true /\
  pending twice_lost 1 = true /\
  reconnectTimeoutRef twice_lost = Some 1%nat /\
  out (disconnect twice_lost)
  = [ClearTimeout 1; WsClose 1 1000 "User disconnected"] /\
  connectionStatus (st (disconnect twice_lost)) = disconnected /\
  reconnectAttemptsRef (st (disconnect twice_lost)) = 0%nat /\
  pending (st (disconnect twice_lost)) 1 = false /\
  pending (st (disconnect twice_lost)) 0 = true /\
  res (demo_deliver (TimerFire 0) (st (disconnect twice_lost))) = Ok tt /\
  out (demo_deliver (TimerFire 0) (st (disconnect twice_lost)))
  = [WsNew 2 "ws://localhost:8000/ws/interview/abc123"] /\
  connectionStatus (st (demo_deliver (TimerFire 0) (st (disconnect twice_lost))))
  = connecting /\
  wsRef (st (demo_deliver (TimerFire 0) (st (disconnect twice_lost)))) = Some 2%nat.
Proof. vm_compute. repeat split. Qed.

End WebSocketContext.

(** * The status indicator of the navigation bar

    [frontend/src/components/layout/Navbar.tsx] reads [connectionStatus]
    from the provider and turns it into the colour and the tooltip of the
    indicator. *)

Module Navbar.

Import WebSocketContext.

Definition getConnectionStatusColor (connectionStatus : ConnectionStatus) : string :=
  match connectionStatus with
  | connected => "#4caf50"
  | connecting => "#ff9800"
  | error => "#f44336"
  | _ => "#9e9e9e"
  end.

Definition getConnectionStatusText (connectionStatus : ConnectionStatus) : string :=
  match connectionStatus with
  | connected => "Connected to HireSmart AI"
  | connecting => "Connecting..."
  | error => "Connection error"
  | _ => "Disconnected"
  end.

(** [connectionStatus === 'connecting' ? 'pulse 1.5s infinite' : 'none'] *)
Definition animation (connectionStatus : ConnectionStatus) : string :=
  match connectionStatus with
  | connecting => "pulse 1.5s infinite"
  | _ => "none"
  end.

(** X20. The indicator tells the four statuses apart: two statuses with
    the same colour, or with the same tooltip text, are the same status. *)
Theorem indicator_injective (a b : ConnectionStatus) :
  getConnectionStatusColor a = getConnectionStatusColor b
  \/ getConnectionStatusText a = getConnectionStatusText b ->
  a = b.
Proof. destruct a, b; intros [H | H]; reflexivity || discriminate H. Qed.

Lemma indicator_injective_witness :
  getConnectionStatusColor error = "#f44336" /\
  (getConnectionStatusColor error = getConnectionStatusColor error
   \/ getConnectionStatusText error = getConnectionStatusText error) /\
  error = error.
Proof.
  split; [reflexivity|].
  assert (H : getConnectionStatusColor error = getConnectionStatusColor error
              \/ getConnectionStatusText error = getConnectionStatusText error)
    by (left; reflexivity).
  split; [exact H | exact (indicator_injective error error H)].
Defined.

(** X21. After any run of the provider from its initial state, the
    indicator shows the tooltip [Connected to HireSmart AI] or the colour
    of a connection only while [isConnected] is true, and the tooltip
    [Disconnected] only while it is false. *)
Theorem indicator_agrees_with_flag
    (JSON_parse : string -> option jsval) (JSON_stringify : jsval -> string)
    (ws_url_ok : string -> bool) (REACT_APP_WS_URL : string) (evs : list Event) :
  let s := fst (run JSON_parse JSON_stringify ws_url_ok REACT_APP_WS_URL evs initial) in
  (if String.eqb (getConnectionStatusText (connectionStatus s))
        "Connected to HireSmart AI"
      || String.eqb (getConnectionStatusColor (connectionStatus s)) "#4caf50"
   then isConnected s = true else True) /\
  (if String.eqb (getConnectionStatusText (connectionStatus s)) "Disconnected"
   then isConnected s = false else True).
Proof.
  intros s.
  destruct (run_wf JSON_parse JSON_stringify ws_url_ok REACT_APP_WS_URL
              evs initial wf_initial) as (_ & _ & _ & Hflags & _).
  fold s in Hflags. unfold flags_ok in Hflags.
  destruct (connectionStatus s); cbn; auto.
Qed.

End Navbar.

(** * The HTTP client

    [frontend/src/services/api.ts]: the two interceptors of the axios
    instance and the calls of [authAPI] that the authentication provider
    makes.  The browser's [localStorage] is a finite map from keys to
    strings. *)

Module Api.

Import WebSocketContext.

(** What the interceptors see of the browser: [localStorage] and the
    [href] last assigned to [window.location]. *)
Record Browser : Type := mkBrowser {
  localStorage : gmap string string;
  location : string
}.

(** A request as the interceptor receives it. *)
Record Config : Type := mkConfig {
  method : string;
  path : string;
  headers : gmap string string;
  data : jsval
}.

Definition token_key : string := "hiresmart_token".

(** [if (token)] for what [getItem] returns: a string or [null]. *)
Definition present (t : option string) : bool :=
  match t with
  | Some v => negb (String.eqb v "")
  | None => false
  end.

(** The request interceptor. *)
Definition request_interceptor (b : Browser) (config : Config) : Config :=
  let token := localStorage b !! token_key in
  if present token then
    mkConfig (method config) (path config)
      (<["Authorization" := "Bearer " +:+ default "" token]> (headers config))
      (data config)
  else config.

(** [v === z] for an integer [z], a number being kept as
    [mantissa * 10^exponent]. *)
Definition is_number (z : Z) (v : jsval) : bool :=
  match v with
  | JNum m e => if 0 <=? e then m * 10 ^ e =? z else m =? z * 10 ^ (- e)
  | _ => false
  end.

(** How the response interceptor hands a failure on: it rejects with the
    error it was given, unless reading the error itself throws. *)
Inductive Rejection : Type :=
| Reject (error : jsval)
| RejectThrown (e : Exn).

(** The error branch of the response interceptor. *)
Definition response_error_interceptor (error : jsval) (b : Browser)
    : Browser * Rejection :=
  match get_prop error "response" with
  | inl e => (b, RejectThrown e)
  | inr response =>
      if is_number 401 (get_prop_opt response "status") then
        (mkBrowser (delete token_key (localStorage b)) "/login", Reject error)
      else (b, Reject error)
  end.

(** The success branch returns the response as it is. *)
Definition response_interceptor (response : jsval) : jsval := response.

(** [authAPI.login], [authAPI.register] and [authAPI.getCurrentUser] up
    to the call of the client: the request each of them hands to axios. *)
Definition login_request (email password : string) : Config :=
  mkConfig "post" "/api/v1/auth/login" ∅
    (JObj [("email", JStr email); ("password", JStr password)]).

Definition register_request (userData : jsval) : Config :=
  mkConfig "post" "/api/v1/auth/register" ∅ userData.

Definition getCurrentUser_request (token : option string) : Config :=
  mkConfig "get" "/api/v1/auth/me"
    (if present token
     then {["Authorization" := "Bearer " +:+ default "" token]}
     else ∅)
    JUndefined.

(** X22. The request interceptor changes nothing of a request but its
    [Authorization] header.  When a non-empty token is stored, that header
    becomes [Bearer] followed by the stored token, replacing whatever the
    caller had put there; when no token or an empty one is stored, the
    request goes out exactly as the caller made it. *)
Theorem bearer_from_storage (b : Browser) (config : Config) :
  let config' := request_interceptor b config in
  method config' = method config /\
  path config' = path config /\
  data config' = data config /\
  (forall h, h <> "Authorization" -> headers config' !! h = headers config !! h) /\
  headers config' !! "Authorization" =
    match localStorage b !! token_key with
    | Some t =>
        if String.eqb t "" then headers config !! "Authorization"
        else Some ("Bearer " +:+ t)
    | None => headers config !! "Authorization"
    end /\
  (present (localStorage b !! token_key) = false -> config' = config).
Proof.
  unfold request_interceptor.
  destruct (localStorage b !! token_key) as [t |]; cbn [present default].
  - destruct (String.eqb t ""); cbn [negb method path data headers].
    + repeat split; auto.
    + do 3 (split; [reflexivity|]).
      split; [intros h Hh; apply lookup_insert_ne; congruence|].
      split; [apply lookup_insert_eq | discriminate].
  - repeat split; auto.
Qed.

Lemma bearer_from_storage_witness :
  present ((∅ : gmap string string) !! token_key) = false /\
  request_interceptor (mkBrowser ∅ "/") (getCurrentUser_request (Some "T"))
  = getCurrentUser_request (Some "T") /\
  headers (request_interceptor (mkBrowser {[token_key := "S"]} "/")
             (getCurrentUser_request (Some "T"))) !! "Authorization"
  = Some "Bearer S".
Proof.
  destruct (bearer_from_storage (mkBrowser ∅ "/") (getCurrentUser_request (Some "T")))
    as (_ & _ & _ & _ & _ & Hsame).
  destruct (bearer_from_storage (mkBrowser {[token_key := "S"]} "/")
              (getCurrentUser_request (Some "T")))
    as (_ & _ & _ & _ & Hauth & _).
  split; [reflexivity|]. split; [exact (Hsame eq_refl)|]. exact Hauth.
Defined.

(** X23. The response interceptor never turns a failure into a success:
    it rejects with the very error it was given.  For a response with
    status 401 it first removes the stored token (and nothing else from
    storage) and sends the browser to [/login], after which the request
    interceptor adds no header to any request; for every other failure,
    including one without a response, storage and location stay as they
    are. *)
Theorem unauthorized_clears_token (error response : jsval) (b : Browser) :
  get_prop error "response" = inr response ->
  let r := response_error_interceptor error b in
  snd r = Reject error /\
  if is_number 401 (get_prop_opt response "status") then
    location (fst r) = "/login" /\
    localStorage (fst r) !! token_key = None /\
    (forall k, k <> token_key -> localStorage (fst r) !! k = localStorage b !! k) /\
    (forall config, request_interceptor (fst r) config = config)
  else fst r = b.
Proof.
  intros Hresp. unfold response_error_interceptor. rewrite Hresp.
  destruct (is_number 401 _); cbn [fst snd]; (split; [reflexivity|]);
    [|reflexivity].
  split; [reflexivity|]. cbn [localStorage].
  split; [apply lookup_delete_eq|].
  split; [intros k Hk; apply lookup_delete_ne; congruence|].
  intros config. unfold request_interceptor. cbn [localStorage].
  rewrite lookup_delete_eq. reflexivity.
Qed.

Lemma unauthorized_clears_token_witness :
  get_prop (JObj [("response", JObj [("status", JNum 401 0)])]) "response"
  = inr (JObj [("status", JNum 401 0)]) /\
  response_error_interceptor (JObj [("response", JObj [("status", JNum 401 0)])])
    (mkBrowser {[token_key := "S"]} "/dashboard")
  = (mkBrowser (delete token_key {[token_key := "S"]}) "/login",
     Reject (JObj [("response", JObj [("status", JNum 401 0)])])) /\
  fst (response_error_interceptor
         (JObj [("response", JObj [("status", JNum 500 0)])])
         (mkBrowser {[token_key := "S"]} "/dashboard"))
  = mkBrowser {[token_key := "S"]} "/dashboard".
Proof.
  destruct (unauthorized_clears_token
              (JObj [("response", JObj [("status", JNum 500 0)])])
              (JObj [("status", JNum 500 0)])
              (mkBrowser {[token_key := "S"]} "/dashboard") eq_refl)
    as [_ Hsame].
  split; [reflexivity|]. split; [reflexivity | exact Hsame].
Defined.

End Api.

(** * The authentication provider

    The source of [AuthProvider] is the second half of
    [frontend/src/App.tsx].  [AuthProvider] keeps the user, the token and a loading flag, mirrors
    the token in [localStorage], and derives [isAuthenticated].  Its
    asynchronous functions wait for one request; each is embedded as the
    function of how that request settled.  Values that come from the
    server are kept as the JavaScript values they are, since the code
    tests them for truthiness; [localStorage] calls and toasts are taken
    not to throw. *)

Module AuthContext.

Import WebSocketContext.
Import Api.

(** *** Values *)

(** How an awaited request ends: with the [data] of the response, or
    with the error axios rejects with. *)
Inductive Settled : Type :=
| Resolved (data : jsval)
| Rejected (reason : jsval).

(** What a [catch] clause binds: a rejection's reason, or an exception
    thrown inside the [try] block. *)
Inductive Caught : Type :=
| Value (v : jsval)
| Thrown (e : Exn).

(** [a && b] *)
Definition js_and (a b : jsval) : jsval := if truthy a then b else a.

(** [error.response?.data?.detail]; an exception object has no
    [response]. *)
Definition detail_of (error : Caught) : Exn + jsval :=
  match error with
  | Thrown _ => inr JUndefined
  | Value v =>
      match get_prop v "response" with
      | inl e => inl e
      | inr response => inr (get_prop_opt (get_prop_opt response "data") "detail")
      end
  end.

Fixpoint indexed (i : nat) (items : list jsval) : list (string * jsval) :=
  match items with
  | [] => []
  | v :: items' => (decimal (Z.of_nat i), v) :: indexed (S i) items'
  end.

Fixpoint characters (i : nat) (s : string) : list (string * jsval) :=
  match s with
  | EmptyString => []
  | String c s' =>
      (decimal (Z.of_nat i), JStr (String c EmptyString)) :: characters (S i) s'
  end.

(** The own enumerable properties a spread copies. *)
Definition own_props (v : jsval) : list (string * jsval) :=
  match v with
  | JObj fields => fields
  | JArr items => indexed 0 items
  | JStr s => characters 0 s
  | _ => []
  end.

(** [o[k] = v] on a list of properties: the key keeps its place if it is
    there, and goes last if it is new. *)
Fixpoint set_prop (k : string) (v : jsval) (fields : list (string * jsval))
    : list (string * jsval) :=
  match fields with
  | [] => [(k, v)]
  | (k', v') :: fields' =>
      if String.eqb k k' then (k, v) :: fields'
      else (k', v') :: set_prop k v fields'
  end.

(** [{ ...a, ...b }] *)
Definition spread (a b : jsval) : jsval :=
  JObj (fold_left (fun acc kv => set_prop (fst kv) (snd kv) acc)
          (own_props a ++ own_props b) []).

(** *** State and effects *)

Record AuthState : Type := mkAuthState {
  user : jsval;
  token : jsval;
  isLoading : bool
}.

(** [useState(null)], [useState(null)], [useState(true)] *)
Definition initial : AuthState := mkAuthState JNull JNull true.

Inductive Notice : Type :=
| ConsoleError (label : string) (error : Caught)
| ToastSuccess (text : string)
| ToastError (content : jsval)
| ToastInfo (text : string).

Record Result (A : Type) : Type := mkResult {
  value : Res A;
  auth : AuthState;
  browser : Browser;
  notices : list Notice
}.
Arguments mkResult {A} value auth browser notices.
Arguments value {A} r.
Arguments auth {A} r.
Arguments browser {A} r.
Arguments notices {A} r.

Definition setItem (k v : string) (b : Browser) : Browser :=
  mkBrowser (<[k := v]> (localStorage b)) (location b).

Definition removeItem (k : string) (b : Browser) : Browser :=
  mkBrowser (delete k (localStorage b)) (location b).

(** [!!user && !!token] *)
Definition isAuthenticated (a : AuthState) : bool :=
  truthy (user a) && truthy (token a).

Section Provider.

(** [String(v)] for a value that is not a string, as template literals
    and [setItem] apply it. *)
Variable ToString : jsval -> string.

Definition to_string (v : jsval) : string :=
  match v with
  | JStr s => s
  | _ => ToString v
  end.

(** [login], from the point where [authAPI.login] has settled. *)
Definition login (outcome : Settled) (a : AuthState) (b : Browser) : Result bool :=
  let caught (error : Caught) : Result bool :=
    match detail_of error with
    | inl e =>
        mkResult (Throw e) (mkAuthState (user a) (token a) false) b
          [ConsoleError "Login error:" error]
    | inr detail =>
        mkResult (Ok false) (mkAuthState (user a) (token a) false) b
          [ConsoleError "Login error:" error;
           ToastError (js_or detail (JStr "Login failed. Please try again."))]
    end in
  match outcome with
  | Rejected reason => caught (Value reason)
  | Resolved response =>
      match get_prop response "access_token" with
      | inl e => caught (Thrown e)
      | inr access_token =>
          let user' := get_prop_opt response "user" in
          if truthy (js_and access_token user') then
            mkResult (Ok true) (mkAuthState user' access_token false)
              (setItem token_key (to_string access_token) b)
              [ToastSuccess
                 ("Welcome back, "
                  +:+ to_string (js_or (get_prop_opt user' "full_name")
                                   (get_prop_opt user' "username"))
                  +:+ "!")]
          else
            mkResult (Ok false) (mkAuthState (user a) (token a) false) b []
      end
  end.

(** [register], from the point where [authAPI.register] has settled. *)
Definition register (outcome : Settled) (a : AuthState) (b : Browser) : Result bool :=
  let caught (error : Caught) : Result bool :=
    match detail_of error with
    | inl e =>
        mkResult (Throw e) (mkAuthState (user a) (token a) false) b
          [ConsoleError "Registration error:" error]
    | inr detail =>
        mkResult (Ok false) (mkAuthState (user a) (token a) false) b
          [ConsoleError "Registration error:" error;
           ToastError (js_or detail (JStr "Registration failed. Please try again."))]
    end in
  match outcome with
  | Rejected reason => caught (Value reason)
  | Resolved response =>
      match get_prop response "access_token" with
      | inl e => caught (Thrown e)
      | inr access_token =>
          let user' := get_prop_opt response "user" in
          if truthy (js_and access_token user') then
            mkResult (Ok true) (mkAuthState user' access_token false)
              (setItem token_key (to_string access_token) b)
              [ToastSuccess
                 ("Welcome to HireSmart AI, "
                  +:+ to_string (js_or (get_prop_opt user' "full_name")
                                   (get_prop_opt user' "username"))
                  +:+ "!")]
          else
            mkResult (Ok false) (mkAuthState (user a) (token a) false) b []
      end
  end.

End Provider.

Definition logout (a : AuthState) (b : Browser) : Result unit :=
  mkResult (Ok tt) (mkAuthState JNull JNull (isLoading a))
    (removeItem token_key b)
    [ToastInfo "You have been logged out successfully."].

Definition updateUser (userData : jsval) (a : AuthState) : AuthState :=
  if truthy (user a)
  then mkAuthState (spread (user a) userData) (token a) (isLoading a)
  else a.

(** [initializeAuth]: [outcome] is how [authAPI.getCurrentUser] settled,
    and is not looked at when no token is stored, since no request is
    made then. *)
Definition initializeAuth (outcome : Settled) (a : AuthState) (b : Browser)
    : Result unit :=
  let storedToken := localStorage b !! token_key in
  if present storedToken then
    match outcome with
    | Resolved userData =>
        if truthy userData then
          mkResult (Ok tt)
            (mkAuthState userData (JStr (default "" storedToken)) false) b []
        else
          mkResult (Ok tt) (mkAuthState (user a) JNull false)
            (removeItem token_key b) []
    | Rejected reason =>
        mkResult (Ok tt) (mkAuthState (user a) JNull false)
          (removeItem token_key b)
          [ConsoleError "Auth initialization error:" (Value reason)]
    end
  else mkResult (Ok tt) (mkAuthState (user a) (token a) false) b [].

(** The request [initializeAuth] makes, if any. *)
Definition initializeAuth_request (b : Browser) : option Config :=
  if present (localStorage b !! token_key)
  then Some (getCurrentUser_request (localStorage b !! token_key))
  else None.

(** What [useAuth()] hands to the socket provider, whose code takes the
    token to be a string or [null]. *)
Definition useAuth (a : AuthState) : option Auth :=
  match token a with
  | JNull => Some (mkAuth None (isAuthenticated a))
  | JStr t => Some (mkAuth (Some t) (isAuthenticated a))
  | _ => None
  end.

(** *** What the statements speak of *)

(** The response carries a truthy [access_token] and a truthy [user]. *)
Definition accepted (outcome : Settled) : bool :=
  match outcome with
  | Resolved response =>
      truthy (get_prop_opt response "access_token")
      && truthy (get_prop_opt response "user")
  | Rejected _ => false
  end.

Definition is_ToastSuccess (n : Notice) : bool :=
  match n with
  | ToastSuccess _ => true
  | _ => false
  end.

(** What [login] and [register] have in common, for a result [r] of
    either on [outcome], started from [a] and [b]. *)
Definition signed_in (ToString : jsval -> string) (outcome : Settled)
    (a : AuthState) (b : Browser) (r : Result bool) : Prop :=
  isLoading (auth r) = false /\
  (forall k, k <> token_key ->
     localStorage (browser r) !! k = localStorage b !! k) /\
  location (browser r) = location b /\
  if accepted outcome then
    value r = Ok true /\
    isAuthenticated (auth r) = true /\
    match outcome with
    | Resolved response =>
        token (auth r) = get_prop_opt response "access_token" /\
        user (auth r) = get_prop_opt response "user" /\
        localStorage (browser r) !! token_key
        = Some (to_string ToString (get_prop_opt response "access_token"))
    | Rejected _ => False
    end
  else
    value r <> Ok true /\
    user (auth r) = user a /\
    token (auth r) = token a /\
    browser r = b /\
    forallb (fun n => negb (is_ToastSuccess n)) (notices r) = true.

(** [k] is among the keys of [fields]. *)
Definition has_key (k : string) (fields : list (string * jsval)) : bool :=
  existsb (String.eqb k) (map fst fields).

(** *** Signing in and out *)

Lemma truthy_js_and (x y : jsval) : truthy (js_and x y) = truthy x && truthy y.
Proof. unfold js_and. destruct (truthy x) eqn:E; [reflexivity | exact E]. Qed.

Lemma login_signed_in (ToString : jsval -> string) (outcome : Settled)
    (a : AuthState) (b : Browser) :
  signed_in ToString outcome a b (login ToString outcome a b).
Proof.
  unfold login.
  destruct outcome as [response | reason]; unfold signed_in, accepted.
  - destruct response as [| | x | m e | str | items | fields];
      cbn [get_prop get_prop_opt detail_of truthy andb auth browser value notices
           isLoading localStorage location setItem];
      try (repeat split; auto; discriminate).
    rewrite truthy_js_and.
    destruct (truthy (assoc "access_token" fields)) eqn:Ht;
      destruct (truthy (assoc "user" fields)) eqn:Hu;
      cbn [andb auth browser value notices isLoading localStorage location setItem
           user token forallb is_ToastSuccess negb];
      try (repeat split; auto; discriminate).
    split; [reflexivity|].
    split; [intros k Hk; apply lookup_insert_ne; congruence|].
    split; [reflexivity|]. split; [reflexivity|].
    split; [unfold isAuthenticated; cbn [user token]; rewrite Ht, Hu; reflexivity|].
    split; [reflexivity|]. split; [reflexivity|].
    apply lookup_insert_eq.
  - unfold detail_of.
    destruct (get_prop reason "response") as [e | response];
      cbn [auth browser value notices isLoading user token forallb
           is_ToastSuccess negb andb];
      repeat split; auto; discriminate.
Qed.

Lemma register_signed_in (ToString : jsval -> string) (outcome : Settled)
    (a : AuthState) (b : Browser) :
  signed_in ToString outcome a b (register ToString outcome a b).
Proof.
  unfold register.
  destruct outcome as [response | reason]; unfold signed_in, accepted.
  - destruct response as [| | x | m e | str | items | fields];
      cbn [get_prop get_prop_opt detail_of truthy andb auth browser value notices
           isLoading localStorage location setItem];
      try (repeat split; auto; discriminate).
    rewrite truthy_js_and.
    destruct (truthy (assoc "access_token" fields)) eqn:Ht;
      destruct (truthy (assoc "user" fields)) eqn:Hu;
      cbn [andb auth browser value notices isLoading localStorage location setItem
           user token forallb is_ToastSuccess negb];
      try (repeat split; auto; discriminate).
    split; [reflexivity|].
    split; [intros k Hk; apply lookup_insert_ne; congruence|].
    split; [reflexivity|]. split; [reflexivity|].
    split; [unfold isAuthenticated; cbn [user token]; rewrite Ht, Hu; reflexivity|].
    split; [reflexivity|]. split; [reflexivity|].
    apply lookup_insert_eq.
  - unfold detail_of.
    destruct (get_prop reason "response") as [e | response];
      cbn [auth browser value notices isLoading user token forallb
           is_ToastSuccess negb andb];
      repeat split; auto; discriminate.
Qed.

(** X24. [login] and [register] succeed exactly when the request
    resolves with a truthy [access_token] and a truthy [user].  Then they
    return true, the token and the user of the state are those of the
    response, the token is stored under [hiresmart_token], and the state
    is authenticated.  In every other case (a rejection, a response
    lacking either field, a response that cannot be read) they do not
    return true, leave the user, the token, storage and location as they
    were and show no success toast.  Either way the loading flag ends
    false and no other storage key is touched. *)
Theorem sign_in_outcome (ToString : jsval -> string) (outcome : Settled)
    (a : AuthState) (b : Browser) :
  signed_in ToString outcome a b (login ToString outcome a b) /\
  signed_in ToString outcome a b (register ToString outcome a b).
Proof. split; [apply login_signed_in | apply register_signed_in]. Qed.

(** X25. After a login that resolved with a non-empty string as
    [access_token] and a truthy [user], every request passes the request
    interceptor with [Authorization: Bearer] followed by that token, and
    what [useAuth()] hands to the socket provider passes the guard of its
    [connect]. *)
Theorem login_then_requests (ToString : jsval -> string) (response : jsval)
    (t : string) (a : AuthState) (b : Browser) :
  get_prop_opt response "access_token" = JStr t ->
  t <> "" ->
  truthy (get_prop_opt response "user") = true ->
  let r := login ToString (Resolved response) a b in
  value r = Ok true /\
  (forall config,
     headers (request_interceptor (browser r) config) !! "Authorization"
     = Some ("Bearer " +:+ t)) /\
  useAuth (auth r) = Some (mkAuth (Some t) true) /\
  authorised (mkAuth (Some t) true) = true.
Proof.
  intros Hat Hne Hu r.
  assert (Htruthy : truthy (JStr t) = true).
  { cbn. destruct (String.eqb_spec t ""); [contradiction | reflexivity]. }
  assert (Hacc : accepted (Resolved response) = true).
  { cbn. rewrite Hat, Htruthy, Hu. reflexivity. }
  destruct (login_signed_in ToString (Resolved response) a b) as (_ & _ & _ & H).
  fold r in H. rewrite Hacc in H.
  destruct H as (Hv & Hauth & Htok & Huser & Hstore).
  rewrite Hat in Htok, Hstore. cbn [to_string] in Hstore.
  split; [exact Hv|]. split; [|split].
  - intros config. unfold request_interceptor. rewrite Hstore.
    cbn [present default]. destruct (String.eqb_spec t ""); [contradiction|].
    cbn [negb headers]. apply lookup_insert_eq.
  - unfold useAuth. rewrite Htok, Hauth. reflexivity.
  - unfold authorised, no_token, token_val; cbn [token WebSocketContext.isAuthenticated].
    cbn [WebSocketContext.token]. rewrite Htruthy. reflexivity.
Qed.

(** X26. [logout] leaves the state unauthenticated with user and token
    null, removes the stored token and nothing else from storage, and
    shows one info toast.  Afterwards the request interceptor adds no
    header, the socket provider's effect for these credentials is
    [disconnect], and a [connect] with them changes nothing.  Undoing a
    login this way leaves storage as it was before the login, minus the
    token. *)
Theorem logout_clears (a : AuthState) (b : Browser) :
  let r := logout a b in
  isAuthenticated (auth r) = false /\
  user (auth r) = JNull /\ token (auth r) = JNull /\
  localStorage (browser r) !! token_key = None /\
  (forall k, k <> token_key ->
     localStorage (browser r) !! k = localStorage b !! k) /\
  notices r = [ToastInfo "You have been logged out successfully."] /\
  (forall config, request_interceptor (browser r) config = config) /\
  useAuth (auth r) = Some (mkAuth None false) /\
  (forall JSON_parse JSON_stringify ws_url_ok REACT_APP_WS_URL s,
     deliver JSON_parse JSON_stringify ws_url_ok REACT_APP_WS_URL
       (AuthChanged (mkAuth None false)) s = disconnect s) /\
  (forall ws_url_ok REACT_APP_WS_URL sessionId sessionType s,
     st (connect ws_url_ok REACT_APP_WS_URL (mkAuth None false)
           sessionId sessionType s) = s) /\
  (forall ToString outcome,
     let r1 := login ToString outcome a b in
     localStorage (browser (logout (auth r1) (browser r1)))
     = delete token_key (localStorage b)).
Proof.
  intros r. subst r. unfold logout, removeItem; cbn [auth browser notices localStorage].
  split; [reflexivity|]. split; [reflexivity|]. split; [reflexivity|].
  split; [apply lookup_delete_eq|].
  split; [intros k Hk; apply lookup_delete_ne; congruence|].
  split; [reflexivity|].
  split; [intros config; unfold request_interceptor; cbn [localStorage];
          rewrite lookup_delete_eq; reflexivity|].
  split; [reflexivity|]. split; [reflexivity|].
  split.
  - intros ws_url_ok REACT_APP_WS_URL sessionId sessionType s.
    unfold connect. rewrite connect_as_eq. reflexivity.
  - intros ToString outcome.
    destruct (login_signed_in ToString outcome a b) as (_ & Hother & _).
    apply map_eq. intros k.
    destruct (decide (k = token_key)) as [-> | Hk].
    + rewrite !lookup_delete_eq. reflexivity.
    + rewrite !lookup_delete_ne by congruence. apply Hother, Hk.
Qed.

(** X27. [initializeAuth], run on the initial state, never throws and
    ends with the loading flag false.  Afterwards a usable token is in
    storage exactly when the state is authenticated: the state is
    authenticated when a non-empty token was stored and the request for
    the current user resolved with a truthy user, and then the token of
    the state is the stored one and storage is untouched; when the
    request failed or gave no user, the stored token is removed and the
    token of the state is null.  No request is made when no token is
    stored. *)
Theorem initializeAuth_outcome (outcome : Settled) (b : Browser) :
  let r := initializeAuth outcome initial b in
  value r = Ok tt /\
  isLoading (auth r) = false /\
  present (localStorage (browser r) !! token_key) = isAuthenticated (auth r) /\
  token (auth r) =
    (if isAuthenticated (auth r)
     then JStr (default "" (localStorage b !! token_key))
     else JNull) /\
  (if isAuthenticated (auth r) then browser r = b else True) /\
  (forall k, k <> token_key ->
     localStorage (browser r) !! k = localStorage b !! k) /\
  (initializeAuth_request b = None <-> present (localStorage b !! token_key) = false).
Proof.
  intros r. subst r. unfold initializeAuth, initializeAuth_request, isAuthenticated.
  destruct (localStorage b !! token_key) as [t |] eqn:Hs; cbn [present default].
  - destruct (String.eqb t "") eqn:Ht; cbn [negb].
    + cbn [value auth browser isLoading token user initial truthy andb].
      rewrite Hs. cbn [present]. rewrite Ht.
      repeat split; auto; discriminate.
    + destruct outcome as [userData | reason];
        [destruct (truthy userData) eqn:Hu|];
        cbn [value auth browser isLoading token user initial removeItem
             localStorage truthy andb];
        unfold id;
        rewrite ?Hu, ?Ht, ?Hs, ?lookup_delete_eq; cbn [present negb andb];
        rewrite ?Ht; cbn [negb];
        (split; [reflexivity|]); (split; [reflexivity|]);
        (split; [reflexivity|]); (split; [reflexivity|]);
        (split; [reflexivity || exact Logic.I|]);
        (split; [intros k Hk; rewrite ?lookup_delete_ne by congruence; reflexivity|]);
        split; discriminate.
  - cbn [value auth browser isLoading token user initial truthy andb].
    rewrite Hs. repeat split; auto.
Qed.

(** *** Updating the user *)

Lemma assoc_set_prop (k k0 : string) (v0 : jsval) (fields : list (string * jsval)) :
  assoc k (set_prop k0 v0 fields) = if String.eqb k k0 then v0 else assoc k fields.
Proof.
  induction fields as [| [k' v'] fields IH]; cbn [set_prop assoc].
  - reflexivity.
  - destruct (String.eqb_spec k0 k') as [-> | Hne]; cbn [assoc].
    + destruct (String.eqb k k'); reflexivity.
    + rewrite IH. destruct (String.eqb_spec k k') as [-> | Hne'].
      * destruct (String.eqb_spec k' k0) as [-> | _]; [contradiction | reflexivity].
      * reflexivity.
Qed.

Lemma assoc_app (k : string) (l1 l2 : list (string * jsval)) :
  assoc k (l1 ++ l2) = if has_key k l1 then assoc k l1 else assoc k l2.
Proof.
  unfold has_key. induction l1 as [| [k' v'] l1 IH]; cbn; [reflexivity|].
  destruct (String.eqb k k'); [reflexivity | exact IH].
Qed.

Lemma has_key_app (k : string) (l1 l2 : list (string * jsval)) :
  has_key k (l1 ++ l2) = has_key k l1 || has_key k l2.
Proof. unfold has_key. rewrite map_app, existsb_app. reflexivity. Qed.

Lemma has_key_rev (k : string) (l : list (string * jsval)) :
  has_key k (rev l) = has_key k l.
Proof.
  induction l as [| [k' v'] l IH]; [reflexivity|].
  cbn [rev]. rewrite has_key_app, IH. unfold has_key; cbn.
  rewrite orb_false_r. apply orb_comm.
Qed.

(** After the assignments of [l] in turn, a key holds what its last
    assignment gave it. *)
Lemma assoc_fold_set (k : string) (l acc : list (string * jsval)) :
  assoc k (fold_left (fun acc kv => set_prop (fst kv) (snd kv) acc) l acc) =
    if has_key k l then assoc k (rev l) else assoc k acc.
Proof.
  revert acc. induction l as [| [k0 v0] l IH]; intros acc; [reflexivity|].
  cbn [fold_left fst snd rev]. rewrite IH, assoc_set_prop, assoc_app, has_key_rev.
  change (has_key k ((k0, v0) :: l)) with (String.eqb k k0 || has_key k l).
  cbn [assoc].
  destruct (has_key k l), (String.eqb k k0); reflexivity.
Qed.

(** X28. [updateUser] does nothing while no user is set.  Otherwise it
    keeps the token and the loading flag and replaces the user by the
    merge of the old user and the update: every own property the update
    names holds the update's value, and every other own property holds
    what the old user had (or is undefined if the old user lacked it). *)
Theorem updateUser_merges (userData : jsval) (a : AuthState) (k : string) :
  let a' := updateUser userData a in
  token a' = token a /\
  isLoading a' = isLoading a /\
  if truthy (user a) then
    assoc k (own_props (user a')) =
      if has_key k (own_props userData)
      then assoc k (rev (own_props userData))
      else assoc k (rev (own_props (user a)))
  else a' = a.
Proof.
  intros a'. subst a'. unfold updateUser.
  destruct (truthy (user a)); [|repeat split].
  cbn [token isLoading user]. split; [reflexivity|]. split; [reflexivity|].
  unfold spread. cbn [own_props].
  rewrite assoc_fold_set, has_key_app, rev_app_distr, assoc_app, has_key_rev.
  destruct (has_key k (own_props userData)); [rewrite orb_true_r; reflexivity|].
  rewrite orb_false_r.
  destruct (has_key k (own_props (user a))) eqn:Hk; [reflexivity|].
  clear -Hk. rewrite <- has_key_rev in Hk. unfold has_key in Hk.
  induction (rev (own_props (user a))) as [| [k' v'] l IH]; [reflexivity|].
  cbn in Hk |- *. apply orb_false_iff in Hk as [Hk1 Hk2].
  rewrite Hk1. exact (IH Hk2).
Qed.

(** *** The socket provider's guard *)

(** X29. For credentials that [useAuth()] hands over, the guard of the
    socket provider's [connect] decides as [isAuthenticated] alone does:
    its second test, on the token, never changes the outcome, because an
    authenticated state always holds a non-empty token. *)
Theorem guard_agrees (a : AuthState) (credentials : Auth) :
  useAuth a = Some credentials ->
  authorised credentials = isAuthenticated a /\
  WebSocketContext.isAuthenticated credentials = isAuthenticated a /\
  (isAuthenticated a = true ->
   exists t, WebSocketContext.token credentials = Some t /\ t <> "").
Proof.
  unfold useAuth, isAuthenticated. intros H.
  destruct (token a) as [| | x | m e | t | items | fields];
    cbv beta iota in H; try discriminate H;
    injection H as H; subst credentials;
    unfold authorised, no_token, token_val;
    cbn [WebSocketContext.token WebSocketContext.isAuthenticated truthy negb].
  - destruct (truthy (user a)); cbn [andb negb];
      (split; [reflexivity|]); (split; [reflexivity|]);
      intros Hf; discriminate Hf.
  - rewrite negb_involutive.
    destruct (truthy (user a)); cbn [andb]; (split; [|split]);
      try reflexivity; try discriminate.
    + destruct (String.eqb t ""); reflexivity.
    + intros Ht. exists t. split; [reflexivity|]. intros ->. discriminate Ht.
Qed.

(** *** Witnesses *)

Lemma login_then_requests_witness :
  let response :=
    JObj [("access_token", JStr "T"); ("token_type", JStr "bearer");
          ("user", JObj [("username", JStr "ada")])] in
  get_prop_opt response "access_token" = JStr "T" /\
  "T" <> "" /\
  truthy (get_prop_opt response "user") = true /\
  notices (login (fun _ => "?") (Resolved response) initial (mkBrowser ∅ "/login"))
  = [ToastSuccess "Welcome back, ada!"] /\
  headers (request_interceptor
             (browser (login (fun _ => "?") (Resolved response) initial
                         (mkBrowser ∅ "/login")))
             (login_request "ada@example.org" "pw")) !! "Authorization"
  = Some "Bearer T".
Proof.
  intros response.
  assert (Hne : "T" <> "") by discriminate.
  destruct (login_then_requests (fun _ => "?") response "T" initial
              (mkBrowser ∅ "/login") eq_refl Hne eq_refl)
    as (_ & Hreq & _).
  split; [reflexivity|]. split; [exact Hne|]. split; [reflexivity|].
  split; [reflexivity|]. exact (Hreq (login_request "ada@example.org" "pw")).
Defined.

Lemma guard_agrees_witness :
  useAuth (mkAuthState (JObj [("username", JStr "ada")]) (JStr "T") false)
  = Some (mkAuth (Some "T") true) /\
  authorised (mkAuth (Some "T") true) = true.
Proof.
  split; [reflexivity|].
  exact (proj1 (guard_agrees
                  (mkAuthState (JObj [("username", JStr "ada")]) (JStr "T") false)
                  (mkAuth (Some "T") true) eq_refl)).
Defined.

Lemma sign_in_outcome_witness :
  accepted (Resolved (JObj [("access_token", JStr "T")])) = false /\
  value (register (fun _ => "?") (Resolved (JObj [("access_token", JStr "T")]))
           initial (mkBrowser ∅ "/register"))
  <> Ok true /\
  browser (register (fun _ => "?") (Resolved (JObj [("access_token", JStr "T")]))
             initial (mkBrowser ∅ "/register"))
  = mkBrowser ∅ "/register".
Proof.
  destruct (sign_in_outcome (fun _ => "?")
              (Resolved (JObj [("access_token", JStr "T")]))
              initial (mkBrowser ∅ "/register"))
    as (_ & _ & _ & _ & Hv & _ & _ & Hb & _).
  split; [reflexivity|]. split; [exact Hv | exact Hb].
Defined.

Lemma logout_clears_witness :
  "theme" <> token_key /\
  localStorage
    (browser (logout (mkAuthState (JObj [("username", JStr "ada")]) (JStr "T") false)
                (mkBrowser {[token_key := "T"; "theme" := "dark"]} "/dashboard")))
    !! "theme" = Some "dark" /\
  localStorage
    (browser (logout (mkAuthState (JObj [("username", JStr "ada")]) (JStr "T") false)
                (mkBrowser {[token_key := "T"; "theme" := "dark"]} "/dashboard")))
    !! token_key = None.
Proof.
  assert (Hk : "theme" <> token_key) by discriminate.
  destruct (logout_clears (mkAuthState (JObj [("username", JStr "ada")]) (JStr "T") false)
              (mkBrowser {[token_key := "T"; "theme" := "dark"]} "/dashboard"))
    as (_ & _ & _ & Hnone & Hother & _).
  split; [exact Hk|]. split; [|exact Hnone].
  rewrite (Hother "theme" Hk). reflexivity.
Defined.

Lemma initializeAuth_outcome_witness :
  present (localStorage (mkBrowser {[token_key := "T"]} "/") !! token_key) = true /\
  isAuthenticated
    (auth (initializeAuth (Rejected (JObj [("response", JObj [("status", JNum 401 0)])]))
             initial (mkBrowser {[token_key := "T"]} "/"))) = false /\
  present
    (localStorage
       (browser (initializeAuth
                   (Rejected (JObj [("response", JObj [("status", JNum 401 0)])]))
                   initial (mkBrowser {[token_key := "T"]} "/")))
     !! token_key) = false.
Proof.
  destruct (initializeAuth_outcome
              (Rejected (JObj [("response", JObj [("status", JNum 401 0)])]))
              (mkBrowser {[token_key := "T"]} "/"))
    as (_ & _ & Hagree & _).
  split; [reflexivity|]. split; [reflexivity|].
  rewrite Hagree. reflexivity.
Defined.

Lemma updateUser_merges_witness :
  truthy (JObj [("username", JStr "ada"); ("full_name", JStr "Ada")]) = true /\
  assoc "full_name"
    (own_props
       (user (updateUser (JObj [("full_name", JStr "Ada L.")])
                (mkAuthState
                   (JObj [("username", JStr "ada"); ("full_name", JStr "Ada")])
                   (JStr "T") false))))
  = JStr "Ada L." /\
  updateUser (JObj [("full_name", JStr "Ada L.")]) initial = initial.
Proof.
  destruct (updateUser_merges (JObj [("full_name", JStr "Ada L.")])
              (mkAuthState (JObj [("username", JStr "ada"); ("full_name", JStr "Ada")])
                 (JStr "T") false) "full_name") as (_ & _ & Hget).
  destruct (updateUser_merges (JObj [("full_name", JStr "Ada L.")]) initial
              "full_name") as (_ & _ & Hsame).
  split; [reflexivity|]. split; [exact Hget | exact Hsame].
Defined.

End AuthContext.
